(** * LLMVRAMCalculator: the memory-estimation engine and its two facades

    A shallow embedding of [LLMVRAMCalculator/LLMVRAMCalculator.py].

    The Python code is written against Python's numeric tower: descriptor
    fields and runtime parameters are [int]s, the quantization table holds
    [float]s, [/] is true division and always yields a [float], and
    [round(x, 2)] rounds a [float] to two decimals.  The embedding keeps that
    tower ([num]) and is parametric in the implementation of [float]
    ([PyFloat]).  It is instantiated twice:

    - [Binary64]: IEEE-754 binary64 as CPython implements it, on Rocq's
      primitive floats, so that concrete calls evaluate to the very bits
      Python prints;
    - [Exact]: floats read as exact rationals, which is the reading under
      which the formulas of the specification are equations. *)

From Stdlib Require Import ZArith QArith Qcanon Qround Floats Lia Lqa List.
From Stdlib Require String.
From stdpp Require Import base option strings gmap.

Local Open Scope Z_scope.

(** ** Exceptions and output *)

(** The exceptions the engine can raise: [d[k]] on an absent key, a true
    division by zero, and a conversion of an [int] too large for a
    [float].  [FetchError] stands for whatever the metadata fetch raises. *)
Inductive pyerr : Type :=
  | KeyError (key : string)
  | ZeroDivisionError
  | OverflowError
  | FetchError (what : string).

(** A computation writes lines to standard output and then either raises
    or returns.  What was printed before an exception stays printed. *)
Definition exec (A : Type) : Type := (list string * (pyerr + A))%type.

Definition ret {A} (a : A) : exec A := ([], inr a).
Definition raise {A} (e : pyerr) : exec A := ([], inl e).
Definition print (line : string) : exec unit := ([line], inr tt).

Definition bind {A B} (m : exec A) (k : A -> exec B) : exec B :=
  match m with
  | (out, inl e) => (out, inl e)
  | (out, inr a) => let '(out', r) := k a in (out ++ out', r)
  end.

Definition lift {A} (r : pyerr + A) : exec A := ([], r).

Definition stdout {A} (m : exec A) : list string := fst m.
Definition outcome {A} (m : exec A) : pyerr + A := snd m.

(** A computation that prints nothing. *)
Definition silent {A} (m : exec A) : Prop := stdout m = [].

Declare Scope exec_scope.
Delimit Scope exec_scope with exec.
Notation "'let*' x ':=' m 'in' k" := (bind m (fun x => k))
  (at level 10, x name, m at level 100, k at level 200) : exec_scope.
Local Open Scope exec_scope.

(** ** Rounding to the nearest integer, ties to even *)

(** The integer nearest to [n / d] for [d > 0]; a tie goes to the even
    neighbour.  Both [round(x, ndigits)] and the binary64 roundings are
    built on it. *)
Definition round_half_even (n d : Z) : Z :=
  let q := n / d in
  match 2 * (n mod d) ?= d with
  | Lt => q
  | Gt => q + 1
  | Eq => if Z.even q then q else q + 1
  end.

(** ** The float interface *)

(** What the engine asks of a [float]: conversion from [int], literals,
    [+], [*], the two true divisions ([float / float] and [int / int], the
    latter rounded once from the exact quotient) and [round(x, ndigits)]. *)
Class PyFloat (F : Type) : Type := {
  fl_of_int : Z -> pyerr + F;
  fl_lit : Q -> F;
  fl_add : F -> F -> F;
  fl_mul : F -> F -> F;
  fl_div : F -> F -> pyerr + F;
  fl_int_truediv : Z -> Z -> pyerr + F;
  fl_round : F -> nat -> F;
}.

(** ** Python numbers *)

Section Tower.
Context {F : Type} `{PyFloat F}.

Inductive num : Type :=
  | Int (z : Z)
  | Flt (f : F).

Definition to_float (x : num) : exec F :=
  match x with
  | Int z => lift (fl_of_int z)
  | Flt f => ret f
  end.

(** [x + y] *)
Definition py_add (x y : num) : exec num :=
  match x, y with
  | Int a, Int b => ret (Int (a + b))
  | _, _ =>
      let* a := to_float x in
      let* b := to_float y in
      ret (Flt (fl_add a b))
  end.

(** [x * y] *)
Definition py_mul (x y : num) : exec num :=
  match x, y with
  | Int a, Int b => ret (Int (a * b))
  | _, _ =>
      let* a := to_float x in
      let* b := to_float y in
      ret (Flt (fl_mul a b))
  end.

(** [x / y] *)
Definition py_truediv (x y : num) : exec num :=
  match x, y with
  | Int a, Int b =>
      let* q := lift (fl_int_truediv a b) in ret (Flt q)
  | _, _ =>
      let* a := to_float x in
      let* b := to_float y in
      let* q := lift (fl_div a b) in
      ret (Flt q)
  end.

(** [round(x, ndigits)] with [ndigits >= 0]: an [int] is returned as it
    is, a [float] is rounded. *)
Definition py_round (x : num) (ndigits : nat) : num :=
  match x with
  | Int z => Int z
  | Flt f => Flt (fl_round f ndigits)
  end.

(** [d[k]] *)
Definition getitem (d : gmap string num) (k : string) : exec num :=
  match d !! k with
  | Some v => ret v
  | None => raise (KeyError k)
  end.
End Tower.

Arguments num F : clear implicits.

Declare Scope py_scope.
Delimit Scope py_scope with py.
Infix "+!" := py_add (at level 50, left associativity) : py_scope.
Infix "*!" := py_mul (at level 40, left associativity) : py_scope.
Infix "/!" := py_truediv (at level 40, left associativity) : py_scope.
Local Open Scope py_scope.

(** ** The quantization table *)

Section Engine.
Context {F : Type} `{PyFloat F}.

Local Abbreviation num := (num F).

(** [_GGUF_QUANTS]: a dict literal, kept in insertion order. *)
Definition _GGUF_QUANTS : list (string * num) :=
  [ ("Q2_K", Flt (fl_lit 3.35));
    ("Q3_K_S", Flt (fl_lit 3.5));
    ("Q3_K_M", Flt (fl_lit 3.91));
    ("Q3_K_L", Flt (fl_lit 4.27));
    ("Q4_0", Flt (fl_lit 4.55));
    ("Q4_K_S", Flt (fl_lit 4.58));
    ("Q4_K_M", Flt (fl_lit 4.85));
    ("Q5_0", Flt (fl_lit 5.54));
    ("Q5_K_S", Flt (fl_lit 5.54));
    ("Q5_K_M", Flt (fl_lit 5.69));
    ("Q6_K", Flt (fl_lit 6.59));
    ("Q8_0", Flt (fl_lit 8.5)) ].

(** [list(d.keys())] *)
Definition keys {V} (d : list (string * V)) : list string := map fst d.

(** [d.get(k, default)] *)
Fixpoint dict_get {V} (d : list (string * V)) (k : string) (default : V) : V :=
  match d with
  | [] => default
  | (k', v) :: d' => if String.eqb k' k then v else dict_get d' k default
  end.

Definition get_gguf_quants : list string := keys _GGUF_QUANTS.

(** ** The four estimators *)

Definition _input_buffer (context : Z) (model_config : gmap string num)
    (bsz : Z) : exec num :=
  let inp_tokens := Int bsz in
  let* hidden_size := getitem model_config "hidden_size" in
  let* inp_embd := hidden_size *! Int bsz in
  let inp_pos := Int bsz in
  let inp_KQ_mask := Int (context * bsz) in
  let inp_K_shift := Int context in
  let inp_sum := Int bsz in
  let* s := inp_tokens +! inp_embd in
  let* s := s +! inp_pos in
  let* s := s +! inp_KQ_mask in
  let* s := s +! inp_K_shift in
  s +! inp_sum.

Definition batch_size_warning : string :=
  "batch size other than 512 is currently not supported for the compute buffer, using batchsize 512 for compute buffer calculation, end result result will be an overestimation".

Definition _compute_buffer (context : Z) (model_config : gmap string num)
    (bsz : Z) : exec num :=
  let* _ := (if negb (bsz =? 512) then print batch_size_warning else ret tt) in
  let* c := Int context /! Int 1024 in
  let* c := c *! Int 2 in
  let* c := c +! Flt (fl_lit 0.75) in
  let* num_attention_heads := getitem model_config "num_attention_heads" in
  let* c := c *! num_attention_heads in
  let* c := c *! Int 1024 in
  c *! Int 1024.

Definition _kv_cache (context : Z) (model_config : gmap string num)
    (cache_bit : Z) : exec num :=
  let* num_attention_heads := getitem model_config "num_attention_heads" in
  let* num_key_value_heads := getitem model_config "num_key_value_heads" in
  let* n_gqa := num_attention_heads /! num_key_value_heads in
  let* hidden_size := getitem model_config "hidden_size" in
  let* n_embd_gqa := hidden_size /! n_gqa in
  let* num_hidden_layers := getitem model_config "num_hidden_layers" in
  let* layers_context := num_hidden_layers *! Int context in
  let* n_elements := n_embd_gqa *! layers_context in
  let* size := Int 2 *! n_elements in
  let* bytes_per_element := Int cache_bit /! Int 8 in
  size *! bytes_per_element.

Definition _context_size (context : Z) (model_config : gmap string num)
    (bsz cache_bit : Z) : exec num :=
  let* inp := _input_buffer context model_config bsz in
  let* kv := _kv_cache context model_config cache_bit in
  let* s := inp +! kv in
  let* cb := _compute_buffer context model_config bsz in
  let* s := s +! cb in
  ret (py_round s 2).

Definition _model_size (model_config : gmap string num) (bpw : num) : exec num :=
  let* parameters := getitem model_config "parameters" in
  let* bits := parameters *! bpw in
  let* bytes := bits /! Int 8 in
  ret (py_round bytes 2).

(** ** The two facades *)

(** The sizing result, a dict with these three keys. *)
Record sizes : Type := {
  model_size : num;
  context_size : num;
  total_size : num;
}.

(** [_model_config] fetches the descriptor over the network.  The engine
    only consumes its outcome, so the facades take it as a parameter: for
    a model name, the descriptor or the exception of the fetch. *)
Variable _model_config : string -> exec (gmap string num).

Definition compute_sizes_exl2 (hf_model : string) (context : Z)
    (cache_bit : Z) (bpw : num) : exec sizes :=
  let batch_size := 512 in
  let* model_config_data := _model_config hf_model in
  let* m := _model_size model_config_data bpw in
  let* model_sz := m /! Int (2 ^ 30) in
  let* c := _context_size context model_config_data batch_size cache_bit in
  let* context_sz := c /! Int (2 ^ 30) in
  let* total_sz := model_sz +! context_sz in
  ret {| model_size := model_sz; context_size := context_sz; total_size := total_sz |}.

Definition compute_sizes_gguf (hf_model : string) (context : Z)
    (quant_size : string) : exec sizes :=
  let batch_size := 512 in
  let* model_config_data := _model_config hf_model in
  let bpw := dict_get _GGUF_QUANTS quant_size (Int 0) in
  let* m := _model_size model_config_data bpw in
  let* model_sz := m /! Int (2 ^ 30) in
  let* c := _context_size context model_config_data batch_size 16 in
  let* context_sz := c /! Int (2 ^ 30) in
  let* total_sz := model_sz +! context_sz in
  ret {| model_size := model_sz; context_size := context_sz; total_size := total_sz |}.

(** The default arguments of the facades. *)
Definition cache_bit_default : Z := 16.
Definition bpw_default : num := Flt (fl_lit 4.5).
Definition quant_size_default : string := "".
End Engine.

Arguments sizes F : clear implicits.

(** ** Floats as exact rationals *)

Module Exact.
Local Open Scope Qc_scope.

Definition of_int (z : Z) : Qc := Q2Qc (inject_Z z).

Definition div (a b : Qc) : pyerr + Qc :=
  if (Qnum b =? 0)%Z then inl ZeroDivisionError else inr (a / b).

Definition int_truediv (a b : Z) : pyerr + Qc :=
  if (b =? 0)%Z then inl ZeroDivisionError else inr (of_int a / of_int b).

(** [round(x, ndigits)]: the multiple of [10 ^ -ndigits] nearest to [x]. *)
Definition round (x : Qc) (ndigits : nat) : Qc :=
  let scale := (10 ^ Z.of_nat ndigits)%Z in
  of_int (round_half_even (Qnum x * scale) (Zpos (Qden x))) / of_int scale.

(** The rational a number stands for. *)
Definition value (x : num Qc) : Qc :=
  match x with
  | Int z => of_int z
  | Flt q => q
  end.

(** The context size in bytes before rounding, for integer fields: input
    buffer, then key/value cache, then compute buffer. *)
Definition context_bytes (h a k l context bsz cache_bit : Z) : Qc :=
  of_int (bsz + h * bsz + bsz + context * bsz + context + bsz)
  + of_int 2 * (of_int h / (of_int a / of_int k) * of_int (l * context))
    * (of_int cache_bit / of_int 8)
  + (of_int context / of_int 1024 * of_int 2 + Q2Qc 0.75)
    * of_int a * of_int 1024 * of_int 1024.

(** The two sizes of a result, in GiB: the rounded byte counts over
    [2 ** 30]. *)
Definition model_gib (p : Z) (bpw : num Qc) : Qc :=
  round (of_int p * value bpw / of_int 8) 2 / of_int (2 ^ 30).

Definition context_gib (h a k l context cache_bit : Z) : Qc :=
  round (context_bytes h a k l context 512 cache_bit) 2 / of_int (2 ^ 30).

(** What [x + y] and [x * y] return in exact arithmetic. *)
Definition exact_add (x y : num Qc) : num Qc :=
  match x, y with
  | Int a, Int b => Int (a + b)
  | _, _ => Flt (value x + value y)
  end.

Definition exact_mul (x y : num Qc) : num Qc :=
  match x, y with
  | Int a, Int b => Int (a * b)
  | _, _ => Flt (value x * value y)
  end.

#[global] Instance float_ops : PyFloat Qc := {
  fl_of_int z := inr (of_int z);
  fl_lit := Q2Qc;
  fl_add := Qcplus;
  fl_mul := Qcmult;
  fl_div := div;
  fl_int_truediv := int_truediv;
  fl_round := round;
}.
End Exact.

(** ** Floats as IEEE-754 binary64 *)

Module Binary64.
(** The binary64 nearest (ties to even) to [(-1)^sx * a / d], for
    [0 <= a] and [0 < d].  The quotient is taken with at least 56
    significant bits and one sticky bit for the remainder, so that the
    final rounding to 53 bits sees on which side of every midpoint the
    exact quotient lies. *)
Definition nearest_ratio (sx : bool) (a d : Z) : spec_float :=
  if a =? 0 then S754_zero sx
  else
    let k := Z.max 0 (56 + Z.log2_up d - Z.log2 a) in
    let q := (a * 2 ^ k) / d in
    let sticky := if (a * 2 ^ k) mod d =? 0 then 0 else 1 in
    binary_normalize prec emax (cond_Zopp sx (2 * q + sticky)) (- k - 1) sx.

(** A finite result is returned, an overflowing one raises. *)
Definition finite_or_raise (x : spec_float) : pyerr + float :=
  match x with
  | S754_zero _ | S754_finite _ _ _ => inr (SF2Prim x)
  | _ => inl OverflowError
  end.

(** [float(z)] *)
Definition of_int (z : Z) : pyerr + float :=
  finite_or_raise (binary_normalize prec emax z 0 false).

(** A decimal literal denotes the binary64 nearest to its value. *)
Definition lit (q : Q) : float :=
  SF2Prim (nearest_ratio (Qnum q <? 0) (Z.abs (Qnum q)) (Zpos (Qden q))).

(** [a / b] on floats *)
Definition div (a b : float) : pyerr + float :=
  if PrimFloat.eqb b 0%float then inl ZeroDivisionError
  else inr (PrimFloat.div a b).

(** [a / b] on ints: the exact quotient, rounded once. *)
Definition int_truediv (a b : Z) : pyerr + float :=
  if b =? 0 then inl ZeroDivisionError
  else finite_or_raise
         (nearest_ratio (xorb (a <? 0) (b <? 0)) (Z.abs a) (Z.abs b)).

(** [round(x, ndigits)]: the exact value of [x] is rounded to the nearest
    multiple of [10 ^ -ndigits] (ties to even), and that decimal is
    converted to the nearest binary64.  Infinities and NaN round to
    themselves, and so does a float that is an integer. *)
Definition round (x : float) (ndigits : nat) : float :=
  match Prim2SF x with
  | S754_finite sx m e =>
      if 0 <=? e then x
      else
        let scale := 10 ^ Z.of_nat ndigits in
        let n := round_half_even (Zpos m * scale) (2 ^ (- e)) in
        SF2Prim (nearest_ratio sx n scale)
  | _ => x
  end.

(** A number that is neither an infinity nor NaN. *)
Definition finite (x : num PrimFloat.float) : bool :=
  match x with
  | Int _ => true
  | Flt f => PrimFloat.is_finite f
  end.

#[global] Instance float_ops : PyFloat PrimFloat.float := {
  fl_of_int := of_int;
  fl_lit := lit;
  fl_add := PrimFloat.add;
  fl_mul := PrimFloat.mul;
  fl_div := div;
  fl_int_truediv := int_truediv;
  fl_round := round;
}.
End Binary64.

Set Warnings "-inexact-float".
(** ** Concrete descriptors *)

(** A descriptor with the five fields the engine reads. *)
Definition descriptor {F} (hidden_size num_attention_heads num_key_value_heads
    num_hidden_layers parameters : num F) : gmap string (num F) :=
  {[ "hidden_size" := hidden_size;
     "num_attention_heads" := num_attention_heads;
     "num_key_value_heads" := num_key_value_heads;
     "num_hidden_layers" := num_hidden_layers;
     "parameters" := parameters ]}.

(** The descriptor of the worked example of the repository
    ([examples/example.py], model Nexusflow/Starling-LM-7B-beta): the
    parameter count is half the [total_size] of the weights, a float. *)
Definition starling : gmap string (num float) :=
  descriptor (Int 4096) (Int 32) (Int 8) (Int 32) (Flt 7241748480%float).

(** The descriptor of the concrete scenario of the specification. *)
Definition scenario_7b {F} : gmap string (num F) :=
  descriptor (Int 4096) (Int 32) (Int 32) (Int 32) (Int 7000000000).

(** A descriptor that breaks the invariants of the data model: a negative
    hidden size, and attention heads that are no multiple of the key/value
    heads. *)
Definition ill_formed {F} : gmap string (num F) :=
  descriptor (Int (-4096)) (Int 3) (Int 2) (Int 32) (Int 7000000000).

(** The descriptor of the scenario without its [num_key_value_heads], and
    one whose key/value head count is zero. *)
Definition headless {F} : gmap string (num F) :=
  delete "num_key_value_heads" scenario_7b.

Definition zero_heads {F} : gmap string (num F) :=
  descriptor (Int 4096) (Int 32) (Int 0) (Int 32) (Int 7000000000).

(** A resolver that answers every model name with the same descriptor. *)
Definition always {F} (cfg : gmap string (num F)) : string -> exec (gmap string (num F)) :=
  fun _ => ret cfg.

(** ** The metadata fetch *)

(** [bool(x)] on floats: a float is true unless it is zero. *)
Class PyTruth (F : Type) : Type := {
  fl_bool : F -> bool;
}.

#[global] Instance exact_truth : PyTruth Qc := {
  fl_bool q := negb (Qnum q =? 0);
}.

#[global] Instance binary64_truth : PyTruth float := {
  fl_bool f := negb (PrimFloat.eqb f 0%float);
}.

(** [try: m except Exception: handler] *)
Definition catch {A} (m handler : exec A) : exec A :=
  match m with
  | (out, inl _) => let '(out', r) := handler in (out ++ out', r)
  | (out, inr a) => (out, inr a)
  end.

Section Fetch.
Context {F : Type} `{PyFloat F} `{PyTruth F}.

(** [bool(x)] *)
Definition py_bool (x : num F) : bool :=
  match x with
  | Int z => negb (z =? 0)
  | Flt f => fl_bool f
  end.

(** What [_model_config] takes from the model page: the outcome of reading
    [["safetensors"]["total"]] from the [ModelSafetensorsParams] element,
    when [soup.find] finds one, and the outcome of reading
    [["model"]["safetensors"]["total"]] from the [ModelHeader] element,
    which raises when there is no such element. *)
Record page : Type := {
  safetensors_params : option (pyerr + num F);
  model_header : pyerr + num F;
}.

(** The hub, as [_model_config] sees it.  For a model name: the parsed
    [config.json], the [["metadata"]["total_size"]] of the safetensors
    index and of the pytorch index, and the model page, each with the
    exception that the request, the parsing or the subscripting raises.
    Values that are not numbers are outside the model. *)
Record hub : Type := {
  config_json : string -> pyerr + gmap string (num F);
  safetensors_total_size : string -> pyerr + num F;
  pytorch_total_size : string -> pyerr + num F;
  model_page : string -> pyerr + page;
}.

Variable web : hub.

(** The variable [model_size] of the source is false, or not yet assigned
    anew, whenever an [except] clause is entered, and each clause assigns
    it or raises: the chain is the value of its first clause that
    returns.  The [ValueError] of the source is a [FetchError] with the
    same message. *)
Definition _model_config (hf_model : string) : exec (gmap string (num F)) :=
  let* config := lift (config_json web hf_model) in
  let* model_size :=
    catch
      (let* total_size := lift (safetensors_total_size web hf_model) in
       let* model_size := total_size /! Int 2 in
       if negb (py_bool model_size)
       then raise (FetchError "no size in safetensors metadata")
       else ret model_size)
      (catch
         (let* total_size := lift (pytorch_total_size web hf_model) in
          let* model_size := total_size /! Int 2 in
          if negb (py_bool model_size)
          then raise (FetchError "no size in pytorch metadata")
          else ret model_size)
         (let* soup := lift (model_page web hf_model) in
          match safetensors_params soup with
          | Some total => lift total
          | None => lift (model_header soup)
          end)) in
  if negb (py_bool model_size)
  then raise (FetchError "no size in pytorch metadata")
  else ret (<["parameters" := model_size]> config).

(** One index of the hub, as both [try] blocks read it: the total size
    halved, or an exception when the request fails, the halving fails or
    the half is zero. *)
Definition index_half (total_size : pyerr + num F) (what : string) : exec (num F) :=
  let* total_size := lift total_size in
  let* model_size := total_size /! Int 2 in
  if negb (py_bool model_size) then raise (FetchError what) else ret model_size.

(** An index is of no use when its total size, halved, is never a number
    that is true: the request failed, the halving failed, or the half is
    zero. *)
Definition unusable (total_size : pyerr + num F) : Prop :=
  forall t v, total_size = inr t -> outcome (t /! Int 2) = inr v ->
              py_bool v = false.
End Fetch.

Arguments page F : clear implicits.
Arguments hub F : clear implicits.

(** The hub of the worked example: [config.json] holds the four
    architecture fields, and the safetensors index a total size of
    14483496960 bytes. *)
Definition starling_hub {F} : hub F :=
  {| config_json := fun _ =>
       inr {[ "hidden_size" := Int 4096;
              "num_attention_heads" := Int 32;
              "num_key_value_heads" := Int 8;
              "num_hidden_layers" := Int 32 ]};
     safetensors_total_size := fun _ => inr (Int 14483496960);
     pytorch_total_size := fun _ => inl (FetchError "404");
     model_page := fun _ => inl (FetchError "404") |}.

(** The same model on a hub without index files, whose page holds the
    parameter count. *)
Definition page_hub {F} : hub F :=
  {| config_json := config_json starling_hub;
     safetensors_total_size := fun _ => inl (FetchError "404");
     pytorch_total_size := fun _ => inl (FetchError "404");
     model_page := fun _ =>
       inr {| safetensors_params := Some (inr (Int 7241748480));
              model_header := inl (FetchError "no ModelHeader") |} |}.

(** The five fields the engine reads. *)
Definition required_fields : list string :=
  [ "hidden_size"; "num_attention_heads"; "num_key_value_heads";
    "num_hidden_layers"; "parameters" ].

(** [cfg] holds the integers [h], [a], [k], [l] and [p] in its five fields. *)
Record has_fields {F} (cfg : gmap string (num F)) (h a k l p : Z) : Prop := {
  hf_hidden_size : cfg !! "hidden_size" = Some (Int h);
  hf_num_attention_heads : cfg !! "num_attention_heads" = Some (Int a);
  hf_num_key_value_heads : cfg !! "num_key_value_heads" = Some (Int k);
  hf_num_hidden_layers : cfg !! "num_hidden_layers" = Some (Int l);
  hf_parameters : cfg !! "parameters" = Some (Int p);
}.

(** A descriptor as the data model wants it: the five fields are positive
    integers. *)
Record valid_descriptor {F} (cfg : gmap string (num F)) (h a k l p : Z) : Prop := {
  vd_fields : has_fields cfg h a k l p;
  vd_hidden_size : 0 < h;
  vd_num_attention_heads : 0 < a;
  vd_num_key_value_heads : 0 < k;
  vd_num_hidden_layers : 0 < l;
  vd_parameters : 0 < p;
}.

(** * Properties *)

(** ** The [exec] monad *)

Section ExecLemmas.
Context {A B : Type}.

Lemma outcome_bind (m : exec A) (k : A -> exec B) :
  outcome (bind m k) =
    match outcome m with inl e => inl e | inr a => outcome (k a) end.
Proof.
  destruct m as [out [e|a]]; cbn; [reflexivity|].
  now destruct (k a).
Qed.

Lemma stdout_bind (m : exec A) (k : A -> exec B) :
  stdout (bind m k) =
    stdout m ++ match outcome m with inl _ => [] | inr a => stdout (k a) end.
Proof.
  destruct m as [out [e|a]]; cbn.
  - now rewrite app_nil_r.
  - now destruct (k a).
Qed.

Lemma bind_returns (m : exec A) (k : A -> exec B) (b : B) :
  outcome (bind m k) = inr b <->
  exists a, outcome m = inr a /\ outcome (k a) = inr b.
Proof.
  rewrite outcome_bind. destruct (outcome m) as [e|a]; split.
  - discriminate.
  - intros (a & Ha & _); discriminate.
  - eauto.
  - now intros (a' & [= <-] & Hb).
Qed.

Lemma bind_ret_l (a : A) (k : A -> exec B) : bind (ret a) k = k a.
Proof. unfold bind, ret. now destruct (k a). Qed.

Lemma bind_raise (e : pyerr) (k : A -> exec B) : bind (raise e) k = raise e.
Proof. reflexivity. Qed.
End ExecLemmas.

Lemma silent_ret {A} (a : A) : silent (ret a).
Proof. reflexivity. Qed.

Lemma silent_raise {A} (e : pyerr) : silent (raise (A:=A) e).
Proof. reflexivity. Qed.

Lemma silent_lift {A} (r : pyerr + A) : silent (lift r).
Proof. reflexivity. Qed.

Lemma silent_bind {A B} (m : exec A) (k : A -> exec B) :
  silent m -> (forall a, silent (k a)) -> silent (bind m k).
Proof.
  unfold silent. intros Hm Hk. rewrite stdout_bind, Hm.
  destruct (outcome m); cbn; auto.
Qed.

Create HintDb silent discriminated.
#[global] Hint Resolve silent_ret silent_raise silent_lift : silent.
#[global] Hint Extern 2 (silent (bind _ _)) =>
  apply silent_bind; [|intros ?] : silent.

Section TowerLemmas.
Context {F : Type} `{PyFloat F}.
Implicit Types (x y : num F) (cfg : gmap string (num F)).

Lemma silent_to_float x : silent (to_float x).
Proof. destruct x; cbn; auto with silent. Qed.
Hint Resolve silent_to_float : silent.

Lemma silent_py_add x y : silent (x +! y).
Proof. destruct x, y; cbn -[bind]; auto 10 with silent. Qed.

Lemma silent_py_mul x y : silent (x *! y).
Proof. destruct x, y; cbn -[bind]; auto 10 with silent. Qed.

Lemma silent_py_truediv x y : silent (x /! y).
Proof. destruct x, y; cbn -[bind]; auto 10 with silent. Qed.

Lemma silent_getitem cfg key : silent (getitem cfg key).
Proof. unfold getitem. destruct (cfg !! key); auto with silent. Qed.

Lemma getitem_returns cfg key v :
  outcome (getitem cfg key) = inr v <-> cfg !! key = Some v.
Proof.
  unfold getitem. destruct (cfg !! key); cbn; split; congruence.
Qed.

Lemma getitem_absent cfg key :
  cfg !! key = None -> getitem cfg key = raise (KeyError key).
Proof. unfold getitem. now intros ->. Qed.

Lemma getitem_present cfg key v :
  cfg !! key = Some v -> getitem cfg key = ret v.
Proof. unfold getitem. now intros ->. Qed.
End TowerLemmas.

#[global] Hint Resolve silent_to_float silent_py_add silent_py_mul
  silent_py_truediv silent_getitem : silent.

(** ** The estimators, for any implementation of floats *)

Section EngineLemmas.
Context {F : Type} `{PyFloat F}.
Implicit Types (x y : num F) (cfg : gmap string (num F)).

Lemma silent_input_buffer context cfg bsz :
  silent (_input_buffer context cfg bsz).
Proof. unfold _input_buffer. auto 20 with silent. Qed.

Lemma silent_kv_cache context cfg cache_bit :
  silent (_kv_cache context cfg cache_bit).
Proof. unfold _kv_cache. auto 30 with silent. Qed.

Lemma silent_model_size cfg bpw : silent (_model_size cfg bpw).
Proof. unfold _model_size. auto 20 with silent. Qed.

(** The compute buffer at the reference batch size prints nothing. *)
Lemma silent_compute_buffer_512 context cfg :
  silent (_compute_buffer context cfg 512).
Proof. unfold _compute_buffer. cbn [Z.eqb Pos.eqb negb]. auto 30 with silent. Qed.

(** At any other batch size the warning is printed first, and the same
    computation follows. *)
Lemma compute_buffer_unfold context cfg bsz :
  _compute_buffer context cfg bsz =
    bind (if negb (bsz =? 512) then print batch_size_warning else ret tt)
         (fun _ => _compute_buffer context cfg 512).
Proof.
  unfold _compute_buffer. cbn [Z.eqb Pos.eqb negb].
  now rewrite (bind_ret_l tt).
Qed.
End EngineLemmas.

#[global] Hint Resolve silent_input_buffer silent_kv_cache silent_model_size
  silent_compute_buffer_512 : silent.

(** ** Compute buffer and batch size *)

(** Whatever the batch size, the estimator has the outcome it has at 512:
    the batch size only decides what is printed. *)
Lemma compute_buffer_any_batch_size {F : Type} `{PyFloat F}
    (context : Z) (model_config : gmap string (num F)) (bsz : Z) :
  outcome (_compute_buffer context model_config bsz)
    = outcome (_compute_buffer context model_config 512)
  /\ stdout (_compute_buffer context model_config bsz)
    = (if bsz =? 512 then [] else [batch_size_warning]).
Proof.
  rewrite compute_buffer_unfold, outcome_bind, stdout_bind.
  pose proof (silent_compute_buffer_512 context model_config) as Hs.
  unfold silent in Hs.
  destruct (bsz =? 512); cbn [negb outcome stdout print ret fst snd];
    now rewrite Hs.
Qed.

(** ** Binary64 against the primitive floats *)

Section Table.
Local Open Scope float_scope.

(** The binary64 operations built here agree with the primitive ones: a
    quotient of small ints is the primitive quotient of their floats, a
    large int is rounded to even or overflows, and [round] gives what
    Python gives on its textbook cases. *)
Lemma binary64_int_truediv_samples :
  map (fun ab => Binary64.int_truediv (fst ab) (snd ab))
      [(1, 3); (-7, 3); (7, -3); (8192, 1024); (32, 8); (3, 2); (1, 10);
       (0, 8); (1, 0)]%Z
  = [inr (1 / 3); inr (-7 / 3); inr (7 / -3); inr (8192 / 1024);
     inr (32 / 8); inr (3 / 2); inr (1 / 10); inr 0; inl ZeroDivisionError].
Proof. vm_compute. reflexivity. Qed.

Lemma binary64_of_int_samples :
  map Binary64.of_int
      [0; 512; -4096; 2 ^ 53 + 1; 2 ^ 53 + 3; 2 ^ 1024]%Z
  = [inr 0; inr 512; inr (-4096); inr 9007199254740992;
     inr 9007199254740996; inl OverflowError].
Proof. vm_compute. reflexivity. Qed.

Lemma binary64_round_samples :
  map (fun x => Binary64.round x 2)
      [2.675; 0.125; 0.375; 1.005; 0.005; 1234567.891; 4073483520;
       infinity]
  = [2.67; 0.12; 0.38; 1; 0.01; 1234567.89; 4073483520; infinity].
Proof. vm_compute. reflexivity. Qed.

(** ** The quantization table *)

(** The literals of the table denote the floats Python reads them as. *)
Lemma binary64_literals :
  map (fun q => Binary64.lit q)
      [3.35; 3.5; 3.91; 4.27; 4.55; 4.58; 4.85; 5.54; 5.69; 6.59; 8.5; 0.75; 4.5]%Q
  = [3.35; 3.5; 3.91; 4.27; 4.55; 4.58; 4.85; 5.54; 5.69; 6.59; 8.5; 0.75; 4.5].
Proof. vm_compute. reflexivity. Qed.

(** C8.  [get_gguf_quants] is a constant: the twelve scheme names in the
    order of the table, the same at every call.  Each of them looks up to a
    bits-per-weight value between 3.35 and 8.5, as a binary64 and as an
    exact rational. *)
Theorem gguf_quants_listing :
  (forall (F : Type) (ops : PyFloat F),
     get_gguf_quants (F := F) =
       [ "Q2_K"; "Q3_K_S"; "Q3_K_M"; "Q3_K_L"; "Q4_0"; "Q4_K_S"; "Q4_K_M";
         "Q5_0"; "Q5_K_S"; "Q5_K_M"; "Q6_K"; "Q8_0" ])
  /\ Forall (fun name =>
       exists bpw : float,
         dict_get (_GGUF_QUANTS (F := float)) name (Int 0) = Flt bpw
         /\ (3.35 <=? bpw) = true /\ (bpw <=? 8.5) = true)
       (get_gguf_quants (F := float))
  /\ Forall (fun name =>
       exists bpw : Qc,
         dict_get (_GGUF_QUANTS (F := Qc)) name (Int 0) = Flt bpw
         /\ (Q2Qc 3.35 <= bpw)%Qc /\ (bpw <= Q2Qc 8.5)%Qc)
       (get_gguf_quants (F := Qc)).
Proof.
  split; [reflexivity|]. split.
  - repeat constructor; eexists; (split; [reflexivity|]);
      split; vm_compute; reflexivity.
  - repeat constructor; eexists; (split; [reflexivity|]);
      split; vm_compute; discriminate.
Qed.
End Table.

(** ** The facades, for any implementation of floats *)

Section FacadeLemmas.
Context {F : Type} `{PyFloat F}.
Variable resolver : string -> exec (gmap string (num F)).
Implicit Types (r : sizes F) (cfg : gmap string (num F)).

(** The named-quantization facade is the explicit one at 16 cache bits
    and at the bits-per-weight the table gives, 0 by default. *)
Lemma compute_sizes_gguf_as_exl2 hf_model context quant_size :
  compute_sizes_gguf resolver hf_model context quant_size =
  compute_sizes_exl2 resolver hf_model context 16
    (dict_get _GGUF_QUANTS quant_size (Int 0)).
Proof. reflexivity. Qed.

(** What a returned result is made of. *)
Lemma compute_sizes_exl2_returns hf_model context cache_bit bpw r :
  outcome (compute_sizes_exl2 resolver hf_model context cache_bit bpw) = inr r <->
  exists cfg m c,
    outcome (resolver hf_model) = inr cfg
    /\ outcome (_model_size cfg bpw) = inr m
    /\ outcome (m /! Int (2 ^ 30)) = inr (model_size r)
    /\ outcome (_context_size context cfg 512 cache_bit) = inr c
    /\ outcome (c /! Int (2 ^ 30)) = inr (context_size r)
    /\ outcome (model_size r +! context_size r) = inr (total_size r).
Proof.
  unfold compute_sizes_exl2. split.
  - intros Hr.
    apply bind_returns in Hr as (cfg & Hcfg & Hr).
    apply bind_returns in Hr as (m & Hm & Hr).
    apply bind_returns in Hr as (model_sz & Hmodel & Hr).
    apply bind_returns in Hr as (c & Hc & Hr).
    apply bind_returns in Hr as (context_sz & Hcontext & Hr).
    apply bind_returns in Hr as (total_sz & Htotal & Hr).
    injection Hr as <-. cbn [model_size context_size total_size].
    exists cfg, m, c. auto 10.
  - intros (cfg & m & c & Hcfg & Hm & Hmodel & Hc & Hcontext & Htotal).
    apply bind_returns. exists cfg. split; [assumption|].
    apply bind_returns. exists m. split; [assumption|].
    apply bind_returns. exists (model_size r). split; [assumption|].
    apply bind_returns. exists c. split; [assumption|].
    apply bind_returns. exists (context_size r). split; [assumption|].
    apply bind_returns. exists (total_size r). split; [assumption|].
    now destruct r.
Qed.

(** A result needs the descriptor to hold what the estimators read. *)
Lemma model_size_reads cfg bpw m :
  outcome (_model_size cfg bpw) = inr m -> is_Some (cfg !! "parameters").
Proof.
  unfold _model_size. intros Hm.
  apply bind_returns in Hm as (v & Hv%getitem_returns & _). eauto.
Qed.

Lemma input_buffer_reads context cfg bsz v :
  outcome (_input_buffer context cfg bsz) = inr v ->
  is_Some (cfg !! "hidden_size").
Proof.
  unfold _input_buffer. intros Hv.
  apply bind_returns in Hv as (h & Hh%getitem_returns & _). eauto.
Qed.

Lemma kv_cache_reads context cfg cache_bit v :
  outcome (_kv_cache context cfg cache_bit) = inr v ->
  is_Some (cfg !! "num_attention_heads")
  /\ is_Some (cfg !! "num_key_value_heads")
  /\ is_Some (cfg !! "num_hidden_layers").
Proof.
  unfold _kv_cache. intros Hv.
  apply bind_returns in Hv as (a & Ha%getitem_returns & Hv).
  apply bind_returns in Hv as (k & Hk%getitem_returns & Hv).
  apply bind_returns in Hv as (n_gqa & _ & Hv).
  apply bind_returns in Hv as (h & _ & Hv).
  apply bind_returns in Hv as (n_embd_gqa & _ & Hv).
  apply bind_returns in Hv as (l & Hl%getitem_returns & _).
  eauto.
Qed.

Lemma context_size_reads context cfg bsz cache_bit v :
  outcome (_context_size context cfg bsz cache_bit) = inr v ->
  forall field,
    In field [ "hidden_size"; "num_attention_heads";
               "num_key_value_heads"; "num_hidden_layers" ] ->
    is_Some (cfg !! field).
Proof.
  unfold _context_size. intros Hv.
  apply bind_returns in Hv as (inp & Hinp%input_buffer_reads & Hv).
  apply bind_returns in Hv as (kv & (Ha & Hk & Hl)%kv_cache_reads & _).
  intros field [<-|[<-|[<-|[<-|[]]]]]; assumption.
Qed.

Lemma compute_sizes_exl2_reads hf_model context cache_bit bpw r :
  outcome (compute_sizes_exl2 resolver hf_model context cache_bit bpw) = inr r ->
  exists cfg,
    outcome (resolver hf_model) = inr cfg
    /\ forall field, In field required_fields -> is_Some (cfg !! field).
Proof.
  intros (cfg & m & c & Hcfg & Hm & _ & Hc & _)%compute_sizes_exl2_returns.
  exists cfg. split; [assumption|].
  intros field [<-|[<-|[<-|[<-|[<-|[]]]]]];
    try (eapply context_size_reads; [eassumption|]; cbn; tauto).
  eapply model_size_reads; eassumption.
Qed.
End FacadeLemmas.

(** ** Rounding half to even *)

Lemma floor_div_mono n1 d1 n2 d2 :
  0 < d1 -> 0 < d2 -> n1 * d2 <= n2 * d1 -> n1 / d1 <= n2 / d2.
Proof.
  intros H1 H2 Hle.
  apply Z.div_le_lower_bound; [assumption|].
  pose proof (Z.mul_div_le n1 d1 H1).
  nia.
Qed.

(** The result is the floor or the floor plus one, according to the
    remainder. *)
Lemma round_half_even_cases n d :
  0 < d ->
  let q := n / d in
  let r := n mod d in
  (round_half_even n d = q
   /\ (2 * r < d \/ (2 * r = d /\ Z.even q = true)))
  \/ (round_half_even n d = q + 1
      /\ (d < 2 * r \/ (2 * r = d /\ Z.even q = false))).
Proof.
  intros Hd q r. unfold round_half_even. fold q r.
  destruct (Z.compare_spec (2 * r) d) as [E|E|E].
  - destruct (Z.even q) eqn:Hq; [left|right]; auto.
  - left; auto.
  - right; auto.
Qed.

Lemma round_half_even_mono n1 d1 n2 d2 :
  0 < d1 -> 0 < d2 -> n1 * d2 <= n2 * d1 ->
  round_half_even n1 d1 <= round_half_even n2 d2.
Proof.
  intros H1 H2 Hle.
  pose proof (floor_div_mono _ _ _ _ H1 H2 Hle) as Hq.
  pose proof (Z.mod_pos_bound n1 d1 H1) as Hr1.
  pose proof (Z.mod_pos_bound n2 d2 H2) as Hr2.
  pose proof (Z.div_mod n1 d1 ltac:(lia)) as E1.
  pose proof (Z.div_mod n2 d2 ltac:(lia)) as E2.
  destruct (round_half_even_cases n1 d1 H1) as [[-> _]|[-> C1]];
    destruct (round_half_even_cases n2 d2 H2) as [[-> C2]|[-> _]]; try lia.
  destruct (Z.eq_dec (n1 / d1) (n2 / d2)) as [Eq|Ne]; [|lia].
  exfalso. rewrite Eq in *.
  set (q := n2 / d2) in *.
  set (r1 := n1 mod d1) in *. set (r2 := n2 mod d2) in *.
  assert (r1 * d2 <= r2 * d1) by nia.
  destruct C1 as [C1|[C1 O1]], C2 as [C2|[C2 O2]]; try congruence; nia.
Qed.

Lemma round_half_even_0 d : 0 < d -> round_half_even 0 d = 0.
Proof.
  intros Hd. unfold round_half_even.
  rewrite Z.mod_0_l, Z.div_0_l by lia. cbn.
  now destruct d.
Qed.

(** ** Exact arithmetic *)

Section ExactArith.
Import Exact.
Local Open Scope Qc_scope.
Implicit Types (x y : num Qc) (a b : Z) (q : Qc).

Lemma of_int_add a b : of_int (a + b) = of_int a + of_int b.
Proof.
  unfold of_int, Qcplus. apply Q2Qc_eq_iff.
  cbn [this Q2Qc]. now rewrite !Qred_correct, inject_Z_plus.
Qed.

Lemma of_int_mul a b : of_int (a * b) = of_int a * of_int b.
Proof.
  unfold of_int, Qcmult. apply Q2Qc_eq_iff.
  cbn [this Q2Qc]. now rewrite !Qred_correct, inject_Z_mult.
Qed.

Lemma of_int_inj a b : of_int a = of_int b -> a = b.
Proof.
  unfold of_int. intros Hab%Q2Qc_eq_iff. now apply inject_Z_injective.
Qed.

Lemma of_int_le a b : (a <= b)%Z -> of_int a <= of_int b.
Proof.
  intros Hab. unfold Qcle, of_int. cbn [this Q2Qc].
  rewrite !Qred_correct. now rewrite <- Zle_Qle.
Qed.

Lemma of_int_0 : of_int 0 = 0.
Proof. now apply Qc_is_canon. Qed.

Lemma of_int_neq_0 a : a <> 0%Z -> of_int a <> 0.
Proof. intros Ha H0. apply Ha, of_int_inj. now rewrite of_int_0. Qed.

(** The zero test of [div] is the test [q = 0]. *)
Lemma Qnum_eqb_0 q : (Qnum q =? 0)%Z = true <-> q = 0.
Proof.
  rewrite Z.eqb_eq. split.
  - intros Hq. apply Qc_is_canon. unfold Qeq. rewrite Hq. reflexivity.
  - now intros ->.
Qed.

Lemma div_nonzero p q : q <> 0 -> div p q = inr (p / q).
Proof.
  intros Hq. unfold div.
  destruct (Qnum q =? 0)%Z eqn:E; [|reflexivity].
  now apply Qnum_eqb_0 in E.
Qed.

(** In exact arithmetic [+] and [*] always return. *)
Lemma py_add_exact x y : x +! y = ret (exact_add x y).
Proof. now destruct x, y. Qed.

Lemma py_mul_exact x y : x *! y = ret (exact_mul x y).
Proof. now destruct x, y. Qed.

Lemma value_exact_add x y : value (exact_add x y) = value x + value y.
Proof. destruct x, y; cbn; auto using of_int_add. Qed.

Lemma value_exact_mul x y : value (exact_mul x y) = value x * value y.
Proof. destruct x, y; cbn; auto using of_int_mul. Qed.

(** True division returns the quotient unless the divisor is zero. *)
Lemma py_truediv_exact x y :
  value y <> 0 -> x /! y = ret (Flt (value x / value y)).
Proof.
  intros Hy. destruct x as [a|p], y as [b|q]; cbn in *.
  - unfold int_truediv. destruct (b =? 0)%Z eqn:E; [|reflexivity].
    apply Z.eqb_eq in E as ->. now rewrite of_int_0 in Hy.
  - now rewrite div_nonzero.
  - now rewrite div_nonzero.
  - now rewrite div_nonzero.
Qed.

Lemma py_truediv_exact_zero x y :
  value y = 0 -> x /! y = raise ZeroDivisionError.
Proof.
  intros Hy. destruct x as [a|p], y as [b|q]; cbn in *.
  - rewrite <- of_int_0 in Hy. apply of_int_inj in Hy as ->. reflexivity.
  - now rewrite Hy.
  - rewrite <- of_int_0 in Hy. apply of_int_inj in Hy as ->. reflexivity.
  - now rewrite Hy.
Qed.

Lemma Qcdiv_neq_0 (p q : Qc) : p <> 0 -> q <> 0 -> p / q <> 0.
Proof.
  intros Hp Hq Hpq. apply Hp.
  rewrite <- (Qcdiv_mult_l p q Hq).
  replace (p * q / q) with (p / q * q) by (field; exact Hq).
  rewrite Hpq. ring.
Qed.
End ExactArith.

(** Evaluation of the engine in exact arithmetic, one operation after the
    other. *)
Create HintDb nonzero discriminated.
#[local] Hint Resolve Qcdiv_neq_0 of_int_neq_0 : nonzero.
#[local] Hint Extern 1 (_ <> 0%Z) => discriminate : nonzero.
#[local] Hint Extern 1 (_ <> 0%Z) => lia : nonzero.

Ltac exact_eval :=
  repeat first
    [ rewrite bind_ret_l
    | rewrite py_add_exact
    | rewrite py_mul_exact
    | rewrite py_truediv_exact by (cbn [Exact.value]; auto with nonzero)
    | erewrite getitem_present by eassumption ];
  rewrite ?value_exact_add, ?value_exact_mul;
  cbn [Exact.value Exact.exact_add Exact.exact_mul].

(** ** The estimators in exact arithmetic *)

Section ExactEngine.
Import Exact.
Local Open Scope Qc_scope.
Implicit Types (cfg : gmap string (num Qc)) (h a k l p : Z).

Lemma exact_input_buffer context cfg bsz h a k l p :
  has_fields cfg h a k l p ->
  _input_buffer context cfg bsz
  = ret (Int (bsz + h * bsz + bsz + context * bsz + context + bsz)).
Proof.
  intros []. unfold _input_buffer. exact_eval. reflexivity.
Qed.

Lemma exact_kv_cache context cfg cache_bit h a k l p :
  has_fields cfg h a k l p -> a <> 0%Z -> k <> 0%Z ->
  _kv_cache context cfg cache_bit
  = ret (Flt (of_int 2
              * (of_int h / (of_int a / of_int k) * of_int (l * context))
              * (of_int cache_bit / of_int 8))).
Proof.
  intros [] Ha Hk. unfold _kv_cache. exact_eval. reflexivity.
Qed.

Lemma exact_compute_buffer_512 context cfg a :
  cfg !! "num_attention_heads" = Some (Int a) ->
  _compute_buffer context cfg 512
  = ret (Flt ((of_int context / of_int 1024 * of_int 2 + Q2Qc 0.75)
              * of_int a * of_int 1024 * of_int 1024)).
Proof.
  intros Ha. unfold _compute_buffer. cbn [Z.eqb Pos.eqb negb].
  exact_eval. reflexivity.
Qed.

Lemma exact_context_size context cfg bsz cache_bit h a k l p :
  has_fields cfg h a k l p -> a <> 0%Z -> k <> 0%Z ->
  _context_size context cfg bsz cache_bit
  = (if (bsz =? 512)%Z then [] else [batch_size_warning],
     inr (Flt (round (context_bytes h a k l context bsz cache_bit) 2))).
Proof.
  intros Hcfg Ha Hk. unfold _context_size.
  rewrite (exact_input_buffer _ _ _ _ _ _ _ _ Hcfg), bind_ret_l.
  rewrite (exact_kv_cache _ _ _ _ _ _ _ _ Hcfg Ha Hk), bind_ret_l.
  rewrite py_add_exact, bind_ret_l.
  rewrite compute_buffer_unfold.
  rewrite (exact_compute_buffer_512 _ _ a) by now destruct Hcfg.
  destruct (bsz =? 512)%Z; reflexivity.
Qed.

Lemma exact_model_size cfg bpw h a k l p :
  has_fields cfg h a k l p ->
  _model_size cfg bpw
  = ret (Flt (round (of_int p * value bpw / of_int 8) 2)).
Proof.
  intros []. unfold _model_size. exact_eval. reflexivity.
Qed.
End ExactEngine.

(** ** The compute buffer and its formula *)

Section ComputeBuffer.
Import Exact.
Local Open Scope Qc_scope.

(** C7.  Whatever the floats, the context length and the descriptor, the
    compute-buffer estimator has at every batch size the outcome it has at
    batch size 512: the batch size only decides what is printed, nothing
    at 512 and the warning, once, at any other size.  In exact arithmetic
    that outcome is
    [(context / 1024 * 2 + 0.75) * num_attention_heads * 1024 * 1024]. *)
Theorem compute_buffer_batch_size :
  (forall (F : Type) (ops : PyFloat F) (context : Z)
          (model_config : gmap string (num F)) (bsz : Z),
     outcome (_compute_buffer context model_config bsz)
     = outcome (_compute_buffer context model_config 512)
     /\ stdout (_compute_buffer context model_config bsz)
        = (if (bsz =? 512)%Z then [] else [batch_size_warning]))
  /\ (forall (context : Z) (model_config : gmap string (num Qc)) (bsz a : Z),
       model_config !! "num_attention_heads" = Some (Int a) ->
       outcome (_compute_buffer context model_config bsz)
       = inr (Flt ((of_int context / of_int 1024 * of_int 2 + Q2Qc 0.75)
                   * of_int a * of_int 1024 * of_int 1024))).
Proof.
  split.
  - intros F ops context model_config bsz.
    apply compute_buffer_any_batch_size.
  - intros context model_config bsz a Ha.
    rewrite (proj1 (compute_buffer_any_batch_size context model_config bsz)).
    now rewrite (exact_compute_buffer_512 _ _ a Ha).
Qed.
End ComputeBuffer.

Lemma compute_buffer_batch_size_witness :
  (outcome (_compute_buffer 8192 starling 100)
   = outcome (_compute_buffer 8192 starling 512)
   /\ stdout (_compute_buffer 8192 starling 100) = [batch_size_warning])
  /\ outcome (_compute_buffer (F := Qc) 8192 scenario_7b 100)
     = inr (Flt ((Exact.of_int 8192 / Exact.of_int 1024 * Exact.of_int 2
                  + Q2Qc 0.75)
                 * Exact.of_int 32 * Exact.of_int 1024 * Exact.of_int 1024)%Qc).
Proof.
  split.
  - exact (proj1 compute_buffer_batch_size float _ 8192 starling 100).
  - apply (proj2 compute_buffer_batch_size 8192 scenario_7b 100 32).
    reflexivity.
Defined.

(** ** Order in exact arithmetic *)

Section ExactOrder.
Import Exact.
Local Open Scope Qc_scope.
Implicit Types (x y z : Qc).

Lemma of_int_nonneg (a : Z) : (0 <= a)%Z -> 0 <= of_int a.
Proof. intros Ha. rewrite <- of_int_0. now apply of_int_le. Qed.

Lemma Qcmult_nonneg x y : 0 <= x -> 0 <= y -> 0 <= x * y.
Proof.
  intros Hx Hy. rewrite <- (Qcmult_0_l y). now apply Qcmult_le_compat_r.
Qed.

Lemma Qcinv_nonneg x : 0 <= x -> 0 <= / x.
Proof.
  unfold Qcle, Qcinv. cbn [this Q2Qc]. intros Hx.
  rewrite (Qred_correct (/ x)). now apply Qinv_le_0_compat.
Qed.

Lemma Qcdiv_nonneg x y : 0 <= x -> 0 <= y -> 0 <= x / y.
Proof. intros Hx Hy. apply Qcmult_nonneg; auto using Qcinv_nonneg. Qed.

Lemma Qcmult_le_compat_l x y z : x <= y -> 0 <= z -> z * x <= z * y.
Proof.
  intros Hxy Hz. rewrite !(Qcmult_comm z). now apply Qcmult_le_compat_r.
Qed.

Lemma Qcdiv_le_compat_r x y z : x <= y -> 0 <= z -> x / z <= y / z.
Proof.
  intros Hxy Hz. apply Qcmult_le_compat_r; auto using Qcinv_nonneg.
Qed.

(** [round(x, ndigits)] is monotone. *)
Lemma round_mono x y (ndigits : nat) :
  x <= y -> round x ndigits <= round y ndigits.
Proof.
  intros Hxy. unfold round.
  assert (0 < 10 ^ Z.of_nat ndigits)%Z as Hs by (apply Z.pow_pos_nonneg; lia).
  apply Qcdiv_le_compat_r; [|apply of_int_nonneg; lia].
  apply of_int_le, round_half_even_mono; try reflexivity.
  unfold Qcle, Qle in Hxy. nia.
Qed.

Lemma round_0 (ndigits : nat) : round 0 ndigits = 0.
Proof.
  unfold round. cbn [this Qnum Qden Q2Qc].
  change (Qnum (Qred 0)) with 0%Z. change (Qden (Qred 0)) with 1%positive.
  rewrite Z.mul_0_l, round_half_even_0 by reflexivity.
  rewrite of_int_0. unfold Qcdiv. apply Qcmult_0_l.
Qed.

(** The context size before rounding grows with the context length. *)
Lemma context_bytes_mono h a k l bsz cache_bit c1 c2 :
  (0 <= h)%Z -> (0 <= a)%Z -> (0 <= k)%Z -> (0 <= l)%Z ->
  (0 <= bsz)%Z -> (0 <= cache_bit)%Z -> (c1 <= c2)%Z ->
  context_bytes h a k l c1 bsz cache_bit
  <= context_bytes h a k l c2 bsz cache_bit.
Proof.
  intros Hh Ha Hk Hl Hbsz Hcb Hc. unfold context_bytes.
  repeat apply Qcplus_le_compat.
  - apply of_int_le. nia.
  - apply Qcmult_le_compat_r;
      [|apply Qcdiv_nonneg; apply of_int_nonneg; lia].
    apply Qcmult_le_compat_l; [|apply of_int_nonneg; lia].
    apply Qcmult_le_compat_l; [apply of_int_le; nia|].
    apply Qcdiv_nonneg; [apply of_int_nonneg; lia|].
    apply Qcdiv_nonneg; apply of_int_nonneg; lia.
  - repeat (apply Qcmult_le_compat_r; [|apply of_int_nonneg; lia]).
    apply Qcplus_le_compat; [|apply Qcle_refl].
    apply Qcmult_le_compat_r; [|apply of_int_nonneg; lia].
    apply Qcdiv_le_compat_r; [|apply of_int_nonneg; lia].
    now apply of_int_le.
Qed.
End ExactOrder.

(** ** Key/value cache *)

Section KVCache.
Import Exact.
Local Open Scope Qc_scope.


End KVCache.

(** ** Context size and context length *)

Section ContextSize.
Import Exact.
Local Open Scope Qc_scope.


End ContextSize.

(** ** The facades in exact arithmetic *)

Section ExactFacade.
Import Exact.
Local Open Scope Qc_scope.
Variable resolver : string -> exec (gmap string (num Qc)).

(** With the five fields present as integers and both head counts
    non-zero the explicit facade returns, and this is its result. *)
Lemma exact_compute_sizes_exl2 hf_model context cache_bit bpw cfg h a k l p :
  outcome (resolver hf_model) = inr cfg ->
  has_fields cfg h a k l p -> a <> 0%Z -> k <> 0%Z ->
  outcome (compute_sizes_exl2 resolver hf_model context cache_bit bpw)
  = inr {| model_size := Flt (model_gib p bpw);
           context_size := Flt (context_gib h a k l context cache_bit);
           total_size := Flt (model_gib p bpw
                              + context_gib h a k l context cache_bit) |}.
Proof.
  intros Hres Hcfg Ha Hk.
  assert (of_int (2 ^ 30) <> 0) as Hgib by (apply of_int_neq_0; discriminate).
  apply compute_sizes_exl2_returns.
  exists cfg, (Flt (round (of_int p * value bpw / of_int 8) 2)),
    (Flt (round (context_bytes h a k l context 512 cache_bit) 2)).
  cbn [model_size context_size total_size].
  rewrite (exact_model_size _ _ _ _ _ _ _ Hcfg).
  rewrite (exact_context_size _ _ _ _ _ _ _ _ _ Hcfg Ha Hk).
  rewrite !py_truediv_exact by exact Hgib.
  split; [exact Hres|]. repeat split; reflexivity.
Qed.

Lemma exact_compute_sizes_gguf hf_model context quant_size cfg h a k l p :
  outcome (resolver hf_model) = inr cfg ->
  has_fields cfg h a k l p -> a <> 0%Z -> k <> 0%Z ->
  let bpw := dict_get _GGUF_QUANTS quant_size (Int 0) in
  outcome (compute_sizes_gguf resolver hf_model context quant_size)
  = inr {| model_size := Flt (model_gib p bpw);
           context_size := Flt (context_gib h a k l context 16);
           total_size := Flt (model_gib p bpw
                              + context_gib h a k l context 16) |}.
Proof.
  intros Hres Hcfg Ha Hk bpw. rewrite compute_sizes_gguf_as_exl2.
  now apply (exact_compute_sizes_exl2 _ _ _ _ cfg).
Qed.

(** A model of zero bits per weight has size zero. *)
Lemma model_gib_0 p : model_gib p (Int 0) = 0.
Proof.
  unfold model_gib. cbn [value]. rewrite of_int_0.
  replace (of_int p * 0 / of_int 8) with 0
    by (field; apply of_int_neq_0; discriminate).
  rewrite round_0. unfold Qcdiv. apply Qcmult_0_l.
Qed.
End ExactFacade.

(** ** The worked example, bit for bit *)

Section Replay.
Local Open Scope float_scope.

(** The first call of [examples/example.py] and the result recorded
    there. *)
Lemma example_exl2 :
  compute_sizes_exl2 (always starling) "Nexusflow/Starling-LM-7B-beta"
    8192 16 (Flt 4.5)
  = ret {| model_size := Flt 3.793727159500122;
           context_size := Flt 1.5293059349060059;
           total_size := Flt 5.323033094406128 |}.
Proof. vm_compute. reflexivity. Qed.

(** The second call, with the scheme ["Q4_K_S"]. *)
Lemma example_gguf :
  compute_sizes_gguf (always starling) "Nexusflow/Starling-LM-7B-beta"
    8192 "Q4_K_S"
  = ret {| model_size := Flt 3.8611711978912355;
           context_size := Flt 1.5293059349060059;
           total_size := Flt 5.390477132797241 |}.
Proof. vm_compute. reflexivity. Qed.

(** The key/value caches of the two descriptors: 1 GiB with 8 key/value
    heads for 32 attention heads, 4 GiB with 32.  With 3 attention heads
    for 2 key/value heads the ratio is 1.5: it is not truncated to 1, which
    would give 4 GiB again. *)
Lemma example_kv_cache :
  _kv_cache 8192 starling 16 = ret (Flt 1073741824)
  /\ _kv_cache (F := float) 8192 scenario_7b 16 = ret (Flt 4294967296)
  /\ _kv_cache 8192
       (descriptor (Int 4096) (Int 3) (Int 2) (Int 32) (Int 7000000000)) 16
     = ret (Flt 2863311530.6666665).
Proof. repeat split; vm_compute; reflexivity. Qed.

(** C2, as the specification states it, fails: for its descriptor the
    engine returns a model size below 3.785 GiB, a context size above
    1.535 GiB and a total above 5.325 GiB, none of which is the stated
    figure to two decimals. *)
Lemma scenario_7b_counterexample :
  exists model context total : float,
    compute_sizes_exl2 (always scenario_7b) "model" 8192 16 (Flt 4.5)
    = ret {| model_size := Flt model;
             context_size := Flt context;
             total_size := Flt total |}
    /\ (model <? 3.785) = true
    /\ (1.535 <? context) = true
    /\ (5.325 <? total) = true.
Proof.
  exists 3.6670826375484467, 4.5293059349060059, 8.1963885724544525.
  split; [vm_compute; reflexivity|].
  split; [reflexivity|]. split; reflexivity.
Qed.

(** C2, amended.  For the descriptor of the scenario, a context of 8192,
    4.5 bits per weight, 16 cache bits and the batch size 512, the model
    takes 3937500000 bytes and the context 4863305216 bytes; in GiB, to two
    decimals, the result is 3.67, 4.53 and 8.2.  The figures 3.79, 1.53 and
    5.32 are those of the worked example, whose descriptor has 8 key/value
    heads and 7241748480 parameters. *)
Theorem scenario_7b_sizes :
  _model_size scenario_7b (Flt 4.5) = ret (Flt 3937500000)
  /\ _context_size 8192 scenario_7b 512 16 = ret (Flt 4863305216)
  /\ compute_sizes_exl2 (always scenario_7b) "model" 8192 16 (Flt 4.5)
     = ret {| model_size := Flt 3.6670826375484467;
              context_size := Flt 4.5293059349060059;
              total_size := Flt 8.1963885724544525 |}
  /\ map (fun x => Binary64.round x 2)
       [3.6670826375484467; 4.5293059349060059; 8.1963885724544525]
     = [3.67; 4.53; 8.2]
  /\ (exists r,
        compute_sizes_exl2 (always starling) "model" 8192 16 (Flt 4.5) = ret r
        /\ map (fun x => py_round x 2) [model_size r; context_size r; total_size r]
           = [Flt 3.79; Flt 1.53; Flt 5.32]).
Proof.
  split; [vm_compute; reflexivity|].
  split; [vm_compute; reflexivity|].
  split; [vm_compute; reflexivity|].
  split; [vm_compute; reflexivity|].
  exists {| model_size := Flt 3.793727159500122;
            context_size := Flt 1.5293059349060059;
            total_size := Flt 5.323033094406128 |}.
  split; vm_compute; reflexivity.
Qed.
End Replay.

(** ** Total size *)

Section Total.
Import Exact.
Local Open Scope Qc_scope.

(** C4.  Whatever the implementation of floats, a result returned by
    either facade has as its total size the sum [model_size + context_size]
    of its two other fields, as Python adds them: the total is no separate
    computation.  In exact arithmetic both facades return for every valid
    descriptor and request, and the total is the sum of the two rounded
    sizes. *)
Theorem total_size_is_sum :
  (forall (F : Type) (ops : PyFloat F)
          (resolver : string -> exec (gmap string (num F)))
          (hf_model : string) (context cache_bit : Z) (bpw : num F)
          (quant_size : string) (r : sizes F),
     outcome (compute_sizes_exl2 resolver hf_model context cache_bit bpw) = inr r
     \/ outcome (compute_sizes_gguf resolver hf_model context quant_size) = inr r ->
     outcome (model_size r +! context_size r) = inr (total_size r))
  /\ (forall (resolver : string -> exec (gmap string (num Qc)))
            (hf_model : string) (context cache_bit : Z) (bpw : num Qc)
            (quant_size : string) (cfg : gmap string (num Qc))
            (h a k l p : Z),
       outcome (resolver hf_model) = inr cfg ->
       valid_descriptor cfg h a k l p ->
       (0 < context)%Z -> (0 < cache_bit)%Z ->
       exists m c m' c' : Qc,
         outcome (compute_sizes_exl2 resolver hf_model context cache_bit bpw)
         = inr {| model_size := Flt m; context_size := Flt c;
                  total_size := Flt (m + c) |}
         /\ outcome (compute_sizes_gguf resolver hf_model context quant_size)
            = inr {| model_size := Flt m'; context_size := Flt c';
                     total_size := Flt (m' + c') |}).
Proof.
  split.
  - intros F ops resolver hf_model context cache_bit bpw quant_size r [Hr|Hr].
    + apply compute_sizes_exl2_returns in Hr
        as (cfg & m & c & _ & _ & _ & _ & _ & Hr).
      exact Hr.
    + rewrite compute_sizes_gguf_as_exl2 in Hr.
      apply compute_sizes_exl2_returns in Hr
        as (cfg & m & c & _ & _ & _ & _ & _ & Hr).
      exact Hr.
  - intros resolver hf_model context cache_bit bpw quant_size cfg h a k l p
      Hres [Hcfg Hh Ha Hk Hl Hp] Hc Hcb.
    do 4 eexists. split.
    + apply (exact_compute_sizes_exl2 _ _ _ _ _ cfg h a k l p);
        [assumption .. | lia | lia].
    + apply (exact_compute_sizes_gguf _ _ _ _ cfg h a k l p);
        [assumption .. | lia | lia].
Qed.

Lemma total_size_is_sum_witness :
  outcome (Flt 3.793727159500122%float +! Flt 1.5293059349060059%float)
  = inr (Flt 5.323033094406128%float)
  /\ exists m c m' c' : Qc,
       outcome (compute_sizes_exl2 (always scenario_7b) "model" 8192 16
                  (Flt (Q2Qc 4.5)))
       = inr {| model_size := Flt m; context_size := Flt c;
                total_size := Flt (m + c) |}
       /\ outcome (compute_sizes_gguf (always scenario_7b) "model" 8192 "Q4_K_S")
          = inr {| model_size := Flt m'; context_size := Flt c';
                   total_size := Flt (m' + c') |}.
Proof.
  split.
  - apply (proj1 total_size_is_sum float _ (always starling)
             "Nexusflow/Starling-LM-7B-beta" 8192 16 (Flt 4.5%float) ""
             {| model_size := Flt 3.793727159500122%float;
                context_size := Flt 1.5293059349060059%float;
                total_size := Flt 5.323033094406128%float |}).
    left. vm_compute. reflexivity.
  - apply (proj2 total_size_is_sum (always scenario_7b) "model" 8192 16
             (Flt (Q2Qc 4.5)) "Q4_K_S" scenario_7b 4096 32 32 32 7000000000);
      [reflexivity | split; [split; reflexivity | reflexivity ..]
      | reflexivity | reflexivity].
Defined.
End Total.

(** ** Frame *)

(** C9.  In the explicit facade, for the same model, hence the same
    descriptor, and the same context length: another [bpw] leaves the
    context size of the result as it was, and another [cache_bit] leaves
    the model size as it was. *)
Theorem exl2_frame {F : Type} `{PyFloat F}
    (resolver : string -> exec (gmap string (num F)))
    (hf_model : string) (context cache_bit cache_bit' : Z)
    (bpw bpw' : num F) (r r' : sizes F) :
  outcome (compute_sizes_exl2 resolver hf_model context cache_bit bpw) = inr r ->
  (outcome (compute_sizes_exl2 resolver hf_model context cache_bit bpw') = inr r' ->
   context_size r' = context_size r)
  /\ (outcome (compute_sizes_exl2 resolver hf_model context cache_bit' bpw) = inr r' ->
      model_size r' = model_size r).
Proof.
  intros (cfg & m & c & Hcfg & Hm & Hmodel & Hc & Hcontext & _)%compute_sizes_exl2_returns.
  split;
    intros (cfg' & m' & c' & Hcfg' & Hm' & Hmodel' & Hc' & Hcontext' & _)%compute_sizes_exl2_returns;
    rewrite Hcfg in Hcfg'; injection Hcfg' as <-.
  - rewrite Hc in Hc'. injection Hc' as <-. congruence.
  - rewrite Hm in Hm'. injection Hm' as <-. congruence.
Qed.

Lemma exl2_frame_witness :
  exists r r' r'' : sizes float,
    compute_sizes_exl2 (always starling) "model" 8192 16 (Flt 4.5%float) = ret r
    /\ compute_sizes_exl2 (always starling) "model" 8192 16 (Flt 5%float) = ret r'
    /\ compute_sizes_exl2 (always starling) "model" 8192 8 (Flt 4.5%float) = ret r''
    /\ context_size r' = context_size r
    /\ model_size r'' = model_size r.
Proof.
  exists {| model_size := Flt 3.793727159500122%float;
            context_size := Flt 1.5293059349060059%float;
            total_size := Flt 5.323033094406128%float |},
         {| model_size := Flt 4.2152523994445801%float;
            context_size := Flt 1.5293059349060059%float;
            total_size := Flt 5.7445583343505859%float |},
         {| model_size := Flt 3.793727159500122%float;
            context_size := Flt 1.0293059349060059%float;
            total_size := Flt 4.8230330944061279%float |}.
  split; [vm_compute; reflexivity|].
  split; [vm_compute; reflexivity|].
  split; [vm_compute; reflexivity|].
  split.
  - refine (proj1 (exl2_frame (always starling) "model" 8192 16 16
                     (Flt 4.5%float) (Flt 5%float) _ _ _) _);
      vm_compute; reflexivity.
  - refine (proj2 (exl2_frame (always starling) "model" 8192 16 8
                     (Flt 4.5%float) (Flt 4.5%float) _ _ _) _);
      vm_compute; reflexivity.
Defined.

(** ** Zero in binary64 *)

Section Binary64Zero.
Local Open Scope float_scope.
Implicit Types (x y c : float).

(** A finite float is a zero or has a mantissa. *)
Lemma is_finite_cases x :
  is_finite x = true ->
  (exists s, Prim2SF x = S754_zero s)
  \/ (exists s m e, Prim2SF x = S754_finite s m e).
Proof.
  unfold is_finite, is_nan, is_infinity.
  rewrite !FloatAxioms.eqb_spec, abs_spec.
  destruct (Prim2SF x) as [s|s| |s m e] eqn:E; cbn; eauto.
  - destruct s; cbn; discriminate.
  - discriminate.
Qed.

Lemma mul_zero_finite x :
  is_finite x = true -> exists s, Prim2SF (x * 0) = S754_zero s.
Proof.
  intros [[s E]|(s & m & e & E)]%is_finite_cases;
    rewrite mul_spec, E; cbn; eauto.
Qed.

Lemma div_zero_by x c s :
  Prim2SF x = S754_zero s ->
  (exists sc mc ec, Prim2SF c = S754_finite sc mc ec) ->
  exists s', Prim2SF (x / c) = S754_zero s'.
Proof.
  intros E (sc & mc & ec & Ec). rewrite div_spec, E, Ec. cbn. eauto.
Qed.

(** Both zeros compare equal to [0]. *)
Lemma zero_eqb_0 x s : Prim2SF x = S754_zero s -> (x =? 0) = true.
Proof. intros E. rewrite FloatAxioms.eqb_spec, E. now destruct s. Qed.

(** Adding a zero to a number gives a float equal to it. *)
Lemma add_zero_l x y s :
  Prim2SF x = S754_zero s -> is_nan y = false -> (x + y =? y) = true.
Proof.
  intros E Hy. unfold is_nan in Hy.
  rewrite FloatAxioms.eqb_spec in *. rewrite add_spec, E.
  destruct (Prim2SF y) as [sy|sy| |sy my ey] eqn:Ey; cbn in *.
  - destruct s, sy; reflexivity.
  - destruct sy; reflexivity.
  - discriminate.
  - now apply negb_false_iff in Hy.
Qed.

(** Rounding a zero returns it. *)
Lemma round_zero x s (ndigits : nat) :
  Prim2SF x = S754_zero s -> Binary64.round x ndigits = x.
Proof. intros E. unfold Binary64.round. now rewrite E. Qed.
End Binary64Zero.

(** ** A model of zero bits per weight, in binary64 *)

Lemma py_truediv_returns_Flt {F : Type} `{PyFloat F} (x y v : num F) :
  outcome (x /! y) = inr v -> exists f, v = Flt f.
Proof.
  unfold py_truediv. intros Hv.
  destruct x, y;
    repeat (apply bind_returns in Hv as (? & _ & Hv));
    injection Hv as <-; eauto.
Qed.

Section Binary64Facade.
Local Open Scope float_scope.
Implicit Types (cfg : gmap string (num float)) (r : sizes float).

Lemma binary64_model_size_zero cfg v :
  cfg !! "parameters" = Some v -> Binary64.finite v = true ->
  exists z s, _model_size cfg (Int 0) = ret (Flt z) /\ Prim2SF z = S754_zero s.
Proof.
  intros Hv Hfin. unfold _model_size.
  rewrite (getitem_present _ _ _ Hv), bind_ret_l.
  destruct v as [p|f].
  - cbn [py_mul]. rewrite bind_ret_l, Z.mul_0_r.
    exists 0, false. split; [vm_compute|]; reflexivity.
  - cbn [Binary64.finite] in Hfin.
    destruct (mul_zero_finite f Hfin) as [s Hs].
    destruct (div_zero_by (f * 0) 8 s Hs) as [s' Hs'];
      [do 3 eexists; vm_compute; reflexivity|].
    exists (f * 0 / 8), s'. split; [|exact Hs'].
    change (ret (Flt (Binary64.round (f * 0 / 8) 2)) = ret (Flt (f * 0 / 8))).
    now rewrite (round_zero _ s').
Qed.

Lemma binary64_zero_bpw (resolver : string -> exec (gmap string (num float)))
    hf_model context cache_bit cfg v r :
  outcome (resolver hf_model) = inr cfg ->
  cfg !! "parameters" = Some v -> Binary64.finite v = true ->
  outcome (compute_sizes_exl2 resolver hf_model context cache_bit (Int 0)) = inr r ->
  exists model context_gib total : float,
    r = {| model_size := Flt model; context_size := Flt context_gib;
           total_size := Flt total |}
    /\ (model =? 0) = true
    /\ (is_nan context_gib = false -> (total =? context_gib) = true).
Proof.
  intros Hres Hv Hfin
    (cfg' & m & c & Hcfg & Hm & Hmodel & Hc & Hcontext & Htotal)%compute_sizes_exl2_returns.
  rewrite Hres in Hcfg. injection Hcfg as <-.
  destruct (binary64_model_size_zero cfg v Hv Hfin) as (z & s & Hz & Hs).
  rewrite Hz in Hm. injection Hm as <-.
  destruct (div_zero_by z 1073741824 s Hs) as [s' Hs'];
    [do 3 eexists; vm_compute; reflexivity|].
  assert (outcome (Flt z /! Int (2 ^ 30)) = inr (Flt (z / 1073741824)))
    as Hgib by reflexivity.
  rewrite Hgib in Hmodel. injection Hmodel as Hmodel.
  destruct (py_truediv_returns_Flt _ _ _ Hcontext) as [cs Hcs].
  rewrite <- Hmodel, Hcs in Htotal. cbn in Htotal. injection Htotal as Htotal.
  exists (z / 1073741824), cs, (z / 1073741824 + cs).
  split; [destruct r; cbn in *; congruence|].
  split; [exact (zero_eqb_0 _ _ Hs')|].
  now apply (add_zero_l _ _ s').
Qed.
End Binary64Facade.

(** ** Unknown quantization schemes *)

Lemma dict_get_absent {V} (d : list (string * V)) (k : string) (default : V) :
  ~ In k (keys d) -> dict_get d k default = default.
Proof.
  induction d as [|[k' v] d IH]; cbn; [reflexivity|].
  intros Hk. destruct (String.eqb_spec k' k) as [->|_]; [tauto|].
  apply IH. tauto.
Qed.

(** The names of the table do not depend on the floats. *)
Lemma get_gguf_quants_names (F G : Type) (ops : PyFloat F) (ops' : PyFloat G) :
  get_gguf_quants (F := F) = get_gguf_quants (F := G).
Proof. reflexivity. Qed.

Lemma unknown_scheme_bpw {F : Type} `{PyFloat F} (quant_size : string) :
  ~ In quant_size (get_gguf_quants (F := float)) ->
  dict_get (_GGUF_QUANTS (F := F)) quant_size (Int 0) = Int 0.
Proof.
  intros Hq. apply dict_get_absent.
  now rewrite (get_gguf_quants_names float F _ _) in Hq.
Qed.

Section UnknownScheme.
Import Exact.
Local Open Scope Qc_scope.

(** In exact arithmetic, with a bits-per-weight of 0 the named facade
    returns a model size of 0 and a total equal to the context size. *)
Lemma exact_zero_bpw (resolver : string -> exec (gmap string (num Qc)))
    hf_model context quant_size cfg h a k l p :
  dict_get (_GGUF_QUANTS (F := Qc)) quant_size (Int 0) = Int 0 ->
  outcome (resolver hf_model) = inr cfg ->
  valid_descriptor cfg h a k l p ->
  exists c : Qc,
    outcome (compute_sizes_gguf resolver hf_model context quant_size)
    = inr {| model_size := Flt 0; context_size := Flt c; total_size := Flt c |}.
Proof.
  intros Hbpw Hres [Hcfg Hh Ha Hk Hl Hp].
  exists (context_gib h a k l context 16).
  rewrite (exact_compute_sizes_gguf _ _ _ _ cfg h a k l p) by (auto; lia).
  cbv zeta. rewrite Hbpw, model_gib_0, Qcplus_0_l. reflexivity.
Qed.

(** In binary64, when the parameter count is an int or a finite float. *)
Lemma binary64_zero_bpw_gguf
    (resolver : string -> exec (gmap string (num float)))
    hf_model context quant_size cfg v r :
  dict_get (_GGUF_QUANTS (F := float)) quant_size (Int 0) = Int 0 ->
  outcome (resolver hf_model) = inr cfg ->
  cfg !! "parameters" = Some v -> Binary64.finite v = true ->
  outcome (compute_sizes_gguf resolver hf_model context quant_size) = inr r ->
  exists model context_gib total : float,
    r = {| model_size := Flt model; context_size := Flt context_gib;
           total_size := Flt total |}
    /\ PrimFloat.eqb model 0 = true
    /\ (PrimFloat.is_nan context_gib = false ->
        PrimFloat.eqb total context_gib = true).
Proof.
  intros Hbpw Hres Hv Hfin Hr.
  rewrite compute_sizes_gguf_as_exl2, Hbpw in Hr.
  exact (binary64_zero_bpw resolver _ _ _ cfg v r Hres Hv Hfin Hr).
Qed.

(** C5.  A scheme name that is no key of the table is looked up to the
    int 0, and nothing is raised on its account.  In binary64, when the
    parameter count is an int or a finite float, the model-size estimator
    returns with it a float equal to 0, and a result returned by the named
    facade has a model size equal to 0.  In exact arithmetic the named
    facade returns, with model size 0, for every valid descriptor. *)
Theorem unknown_scheme_model_size_zero (quant_size : string) :
  ~ In quant_size (get_gguf_quants (F := float)) ->
  (forall (F : Type) (ops : PyFloat F),
     dict_get (_GGUF_QUANTS (F := F)) quant_size (Int 0) = Int 0)
  /\ (forall (resolver : string -> exec (gmap string (num float)))
            (hf_model : string) (context : Z)
            (cfg : gmap string (num float)) (v : num float),
       outcome (resolver hf_model) = inr cfg ->
       cfg !! "parameters" = Some v -> Binary64.finite v = true ->
       (exists bytes : float,
          _model_size cfg (dict_get _GGUF_QUANTS quant_size (Int 0))
          = ret (Flt bytes)
          /\ PrimFloat.eqb bytes 0 = true)
       /\ (forall r : sizes float,
            outcome (compute_sizes_gguf resolver hf_model context quant_size)
            = inr r ->
            exists model : float,
              model_size r = Flt model /\ PrimFloat.eqb model 0 = true))
  /\ (forall (resolver : string -> exec (gmap string (num Qc)))
            (hf_model : string) (context : Z)
            (cfg : gmap string (num Qc)) (h a k l p : Z),
       outcome (resolver hf_model) = inr cfg ->
       valid_descriptor cfg h a k l p ->
       exists c : Qc,
         outcome (compute_sizes_gguf resolver hf_model context quant_size)
         = inr {| model_size := Flt 0; context_size := Flt c;
                  total_size := Flt c |}).
Proof.
  intros Hq. split; [|split].
  - intros F ops. now apply unknown_scheme_bpw.
  - intros resolver hf_model context cfg v Hres Hv Hfin. split.
    + rewrite (unknown_scheme_bpw _ Hq).
      destruct (binary64_model_size_zero cfg v Hv Hfin) as (z & s & Hz & Hs).
      exists z. split; [exact Hz|exact (zero_eqb_0 _ _ Hs)].
    + intros r Hr.
      destruct (binary64_zero_bpw_gguf resolver hf_model context quant_size
                  cfg v r (unknown_scheme_bpw _ Hq) Hres Hv Hfin Hr)
        as (model & c & total & -> & Hmodel & _).
      now exists model.
  - intros resolver hf_model context cfg h a k l p Hres Hcfg.
    now apply (exact_zero_bpw _ _ _ _ cfg h a k l p (unknown_scheme_bpw _ Hq)).
Qed.
End UnknownScheme.

Lemma unknown_scheme_model_size_zero_witness :
  dict_get (_GGUF_QUANTS (F := float)) "Q9_K" (Int 0) = Int 0
  /\ (exists bytes : float,
        _model_size starling (dict_get _GGUF_QUANTS "Q9_K" (Int 0))
        = ret (Flt bytes)
        /\ PrimFloat.eqb bytes 0 = true)
  /\ (exists model : float,
        Flt 0%float = Flt model /\ PrimFloat.eqb model 0 = true)
  /\ (exists c : Qc,
        outcome (compute_sizes_gguf (always scenario_7b) "model" 8192 "Q9_K")
        = inr {| model_size := Flt (Q2Qc 0); context_size := Flt c;
                 total_size := Flt c |}).
Proof.
  assert (~ In "Q9_K" (get_gguf_quants (F := float))) as Hq
    by (vm_compute; intuition discriminate).
  destruct (unknown_scheme_model_size_zero "Q9_K" Hq) as (Hbpw & Hb64 & Hexact).
  destruct (Hb64 (always starling) "model" 8192 starling
              (Flt 7241748480%float) eq_refl eq_refl eq_refl)
    as [Hbytes Hmodel].
  split; [apply Hbpw|]. split; [exact Hbytes|]. split.
  - apply (Hmodel {| model_size := Flt 0%float;
                     context_size := Flt 1.5293059349060059%float;
                     total_size := Flt 1.5293059349060059%float |}).
    vm_compute. reflexivity.
  - apply (Hexact (always scenario_7b) "model" 8192 scenario_7b
             4096 32 32 32 7000000000);
      [reflexivity | split; [split; reflexivity | reflexivity ..]].
Defined.

(** ** The default scheme *)

Section DefaultScheme.
Import Exact.
Local Open Scope Qc_scope.

Lemma default_scheme_unknown :
  ~ In quant_size_default (get_gguf_quants (F := float)).
Proof. vm_compute. intuition discriminate. Qed.

(** C10.  The default scheme name, the empty string, is no key of the
    table.  Called with it, the named facade returns, in exact arithmetic
    and for every valid descriptor, a model size of 0 and a total size
    that is the context size.  In binary64 a returned result has a model
    size equal to 0, when the parameter count is an int or a finite float,
    and a total size equal to the context size, unless that is NaN. *)
Theorem default_scheme_sizes :
  (forall (F : Type) (ops : PyFloat F),
     dict_get (_GGUF_QUANTS (F := F)) quant_size_default (Int 0) = Int 0)
  /\ (forall (resolver : string -> exec (gmap string (num Qc)))
            (hf_model : string) (context : Z)
            (cfg : gmap string (num Qc)) (h a k l p : Z),
       outcome (resolver hf_model) = inr cfg ->
       valid_descriptor cfg h a k l p ->
       exists c : Qc,
         outcome (compute_sizes_gguf resolver hf_model context quant_size_default)
         = inr {| model_size := Flt 0; context_size := Flt c;
                  total_size := Flt c |})
  /\ (forall (resolver : string -> exec (gmap string (num float)))
            (hf_model : string) (context : Z)
            (cfg : gmap string (num float)) (v : num float) (r : sizes float),
       outcome (resolver hf_model) = inr cfg ->
       cfg !! "parameters" = Some v -> Binary64.finite v = true ->
       outcome (compute_sizes_gguf resolver hf_model context quant_size_default)
       = inr r ->
       exists model context_gib total : float,
         r = {| model_size := Flt model; context_size := Flt context_gib;
                total_size := Flt total |}
         /\ PrimFloat.eqb model 0 = true
         /\ (PrimFloat.is_nan context_gib = false ->
             PrimFloat.eqb total context_gib = true)).
Proof.
  pose proof default_scheme_unknown as Hq.
  split; [|split].
  - intros F ops. now apply unknown_scheme_bpw.
  - intros resolver hf_model context cfg h a k l p Hres Hcfg.
    now apply (exact_zero_bpw _ _ _ _ cfg h a k l p (unknown_scheme_bpw _ Hq)).
  - intros resolver hf_model context cfg v r Hres Hv Hfin Hr.
    exact (binary64_zero_bpw_gguf resolver hf_model context _ cfg v r
             (unknown_scheme_bpw _ Hq) Hres Hv Hfin Hr).
Qed.

Lemma default_scheme_sizes_witness :
  (exists c : Qc,
     outcome (compute_sizes_gguf (always scenario_7b) "model" 8192 "")
     = inr {| model_size := Flt 0; context_size := Flt c; total_size := Flt c |})
  /\ (exists model context_gib total : float,
        {| model_size := Flt 0%float;
           context_size := Flt 4.5293059349060059%float;
           total_size := Flt 4.5293059349060059%float |}
        = {| model_size := Flt model; context_size := Flt context_gib;
             total_size := Flt total |}
        /\ PrimFloat.eqb model 0 = true
        /\ (PrimFloat.is_nan context_gib = false ->
            PrimFloat.eqb total context_gib = true)).
Proof.
  destruct default_scheme_sizes as (_ & Hexact & Hb64). split.
  - apply (Hexact (always scenario_7b) "model" 8192 scenario_7b
             4096 32 32 32 7000000000);
      [reflexivity | split; [split; reflexivity | reflexivity ..]].
  - apply (Hb64 (always scenario_7b) "model" 8192 scenario_7b
             (Int 7000000000));
      vm_compute; reflexivity.
Defined.
End DefaultScheme.

(** ** Descriptors the data model excludes *)

(** Whatever the floats, a facade that returns has read all five fields:
    with one of them absent it raises. *)
Lemma facade_needs_fields {F : Type} `{PyFloat F}
    (resolver : string -> exec (gmap string (num F)))
    hf_model context cache_bit bpw (cfg : gmap string (num F)) field :
  outcome (resolver hf_model) = inr cfg ->
  In field required_fields -> cfg !! field = None ->
  exists e,
    outcome (compute_sizes_exl2 resolver hf_model context cache_bit bpw) = inl e.
Proof.
  intros Hres Hfield Habsent.
  destruct (outcome (compute_sizes_exl2 _ _ _ _ _)) as [e|r] eqn:Hr; [eauto|].
  apply compute_sizes_exl2_reads in Hr as (cfg' & Hcfg' & Hall).
  rewrite Hres in Hcfg'. injection Hcfg' as <-.
  destruct (Hall field Hfield) as [v Hv]. congruence.
Qed.

Section ExactFailures.
Import Exact.
Local Open Scope Qc_scope.
Variable resolver : string -> exec (gmap string (num Qc)).
Implicit Types (cfg : gmap string (num Qc)) (h a k l p : Z).

Lemma exact_model_size_of cfg bpw v :
  cfg !! "parameters" = Some v ->
  _model_size cfg bpw = ret (Flt (round (value v * value bpw / of_int 8) 2)).
Proof. intros Hv. unfold _model_size. exact_eval. reflexivity. Qed.

(** A head count of zero makes a true division raise. *)
Lemma exact_kv_cache_zero context cfg cache_bit h a k l p :
  has_fields cfg h a k l p -> a = 0%Z \/ k = 0%Z ->
  _kv_cache context cfg cache_bit = raise ZeroDivisionError.
Proof.
  intros [] Hz. unfold _kv_cache. exact_eval.
  destruct (Z.eq_dec k 0%Z) as [->|Hk].
  - rewrite py_truediv_exact_zero by apply of_int_0. reflexivity.
  - destruct Hz as [->|]; [|contradiction].
    exact_eval.
    rewrite (py_truediv_exact_zero (Int h)); [reflexivity|].
    cbn [value]. rewrite of_int_0. unfold Qcdiv. apply Qcmult_0_l.
Qed.

Lemma exact_compute_sizes_exl2_zero hf_model context cache_bit bpw cfg h a k l p :
  outcome (resolver hf_model) = inr cfg ->
  has_fields cfg h a k l p -> a = 0%Z \/ k = 0%Z ->
  outcome (compute_sizes_exl2 resolver hf_model context cache_bit bpw)
  = inl ZeroDivisionError.
Proof.
  intros Hres Hcfg Hz. unfold compute_sizes_exl2.
  rewrite outcome_bind, Hres.
  rewrite (exact_model_size _ _ _ _ _ _ _ Hcfg). exact_eval.
  unfold _context_size.
  rewrite (exact_input_buffer _ _ _ _ _ _ _ _ Hcfg), bind_ret_l.
  rewrite (exact_kv_cache_zero _ _ _ _ _ _ _ _ Hcfg Hz).
  reflexivity.
Qed.

(** When the fields that are present are positive integers, the first
    field the code reads and does not find is reported. *)
Lemma exact_missing_field hf_model context cache_bit bpw cfg :
  outcome (resolver hf_model) = inr cfg ->
  (forall field, In field required_fields ->
     cfg !! field = None \/ exists z, cfg !! field = Some (Int z) /\ (0 < z)%Z) ->
  (exists field, In field required_fields /\ cfg !! field = None) ->
  exists field,
    In field required_fields /\ cfg !! field = None
    /\ outcome (compute_sizes_exl2 resolver hf_model context cache_bit bpw)
       = inl (KeyError field).
Proof.
  intros Hres Hall Hmiss. unfold compute_sizes_exl2.
  rewrite outcome_bind, Hres.
  destruct (Hall "parameters") as [Hp|(p & Hp & Hp0)]; [cbn; tauto| |].
  { exists "parameters". split; [cbn; tauto|]. split; [assumption|].
    unfold _model_size. now rewrite (getitem_absent _ _ Hp). }
  rewrite (exact_model_size_of _ _ _ Hp). exact_eval.
  unfold _context_size, _input_buffer.
  destruct (Hall "hidden_size") as [Hh|(h & Hh & Hh0)]; [cbn; tauto| |].
  { exists "hidden_size". split; [cbn; tauto|]. split; [assumption|].
    now rewrite (getitem_absent _ _ Hh). }
  exact_eval. unfold _kv_cache.
  destruct (Hall "num_attention_heads") as [Ha|(a & Ha & Ha0)]; [cbn; tauto| |].
  { exists "num_attention_heads". split; [cbn; tauto|]. split; [assumption|].
    now rewrite (getitem_absent _ _ Ha). }
  exact_eval.
  destruct (Hall "num_key_value_heads") as [Hk|(k & Hk & Hk0)]; [cbn; tauto| |].
  { exists "num_key_value_heads". split; [cbn; tauto|]. split; [assumption|].
    now rewrite (getitem_absent _ _ Hk). }
  exact_eval.
  destruct (Hall "num_hidden_layers") as [Hl|(l & Hl & Hl0)]; [cbn; tauto| |].
  { exists "num_hidden_layers". split; [cbn; tauto|]. split; [assumption|].
    now rewrite (getitem_absent _ _ Hl). }
  exfalso. destruct Hmiss as (field & Hin & Hnone).
  cbn in Hin. intuition (subst; congruence).
Qed.
End ExactFailures.

Section Failures.
Import Exact.
Local Open Scope Qc_scope.



End Failures.


(** * More of the engine *)

(** ** What the facades print and raise *)

Section FacadeEffects.
Context {F : Type} `{PyFloat F}.
Variable resolver : string -> exec (gmap string (num F)).
Implicit Types (cfg : gmap string (num F)).

Lemma silent_context_size_512 context cfg cache_bit :
  silent (_context_size context cfg 512 cache_bit).
Proof. unfold _context_size. auto 30 with silent. Qed.

(** Neither facade prints anything of its own: standard output holds
    what the fetch wrote and nothing else.  The warning of the compute
    buffer is out of reach of both, as they fix the batch size at 512. *)
Theorem facades_print_nothing hf_model context cache_bit bpw quant_size :
  stdout (compute_sizes_exl2 resolver hf_model context cache_bit bpw)
  = stdout (resolver hf_model)
  /\ stdout (compute_sizes_gguf resolver hf_model context quant_size)
     = stdout (resolver hf_model).
Proof.
  assert (forall cache_bit bpw,
            stdout (compute_sizes_exl2 resolver hf_model context cache_bit bpw)
            = stdout (resolver hf_model)) as Hexl2.
  { intros cb b. unfold compute_sizes_exl2. rewrite stdout_bind.
    destruct (outcome (resolver hf_model)) as [e|cfg];
      [apply app_nil_r|].
    pose proof (silent_context_size_512 context cfg cb) as Hc.
    match goal with |- _ ++ stdout ?k = _ => assert (silent k) as Hk end.
    { auto 30 with silent. }
    unfold silent in Hk. rewrite Hk. apply app_nil_r. }
  split; [apply Hexl2|].
  rewrite compute_sizes_gguf_as_exl2. apply Hexl2.
Qed.

(** An exception of the fetch is the exception of the facade, and a
    descriptor without ["parameters"] gives the [KeyError] of that field
    whatever else it lacks: the model size is computed first. *)
Theorem facades_first_failure hf_model context cache_bit bpw quant_size :
  (forall e,
     outcome (resolver hf_model) = inl e ->
     outcome (compute_sizes_exl2 resolver hf_model context cache_bit bpw) = inl e
     /\ outcome (compute_sizes_gguf resolver hf_model context quant_size) = inl e)
  /\ (forall cfg,
        outcome (resolver hf_model) = inr cfg ->
        cfg !! "parameters" = None ->
        outcome (compute_sizes_exl2 resolver hf_model context cache_bit bpw)
        = inl (KeyError "parameters")
        /\ outcome (compute_sizes_gguf resolver hf_model context quant_size)
           = inl (KeyError "parameters")).
Proof.
  split.
  - intros e He. rewrite compute_sizes_gguf_as_exl2.
    unfold compute_sizes_exl2. now rewrite !outcome_bind, He.
  - intros cfg Hcfg Hp. rewrite compute_sizes_gguf_as_exl2.
    unfold compute_sizes_exl2, _model_size.
    rewrite !outcome_bind, Hcfg, !outcome_bind.
    now rewrite !(getitem_absent _ _ Hp).
Qed.
End FacadeEffects.

Lemma facades_first_failure_witness :
  outcome (compute_sizes_exl2 (fun _ => raise (FetchError "404")) "model"
             8192 16 (Flt 4.5%float)) = inl (FetchError "404")
  /\ outcome (compute_sizes_gguf (F := float) (always ∅) "model" 8192 "Q4_K_S")
     = inl (KeyError "parameters").
Proof.
  split.
  - exact (proj1 (proj1 (facades_first_failure
                           (fun _ => raise (FetchError "404")) "model" 8192 16
                           (Flt 4.5%float) "") (FetchError "404") eq_refl)).
  - exact (proj2 (proj2 (facades_first_failure (F := float) (always ∅) "model"
                           8192 16 (Flt 4.5%float) "Q4_K_S") ∅
                    eq_refl eq_refl)).
Defined.

(** ** What the estimators read *)

Section Fields.
Context {F : Type} `{PyFloat F}.
Implicit Types (cfg : gmap string (num F)).

Lemma getitem_ext cfg cfg' key :
  cfg !! key = cfg' !! key -> getitem cfg key = getitem cfg' key.
Proof. unfold getitem. now intros ->. Qed.

Lemma model_size_ext cfg cfg' bpw :
  cfg !! "parameters" = cfg' !! "parameters" ->
  _model_size cfg bpw = _model_size cfg' bpw.
Proof. intros Hp. unfold _model_size. now rewrite (getitem_ext _ _ _ Hp). Qed.

Lemma context_size_ext context cfg cfg' bsz cache_bit :
  cfg !! "hidden_size" = cfg' !! "hidden_size" ->
  cfg !! "num_attention_heads" = cfg' !! "num_attention_heads" ->
  cfg !! "num_key_value_heads" = cfg' !! "num_key_value_heads" ->
  cfg !! "num_hidden_layers" = cfg' !! "num_hidden_layers" ->
  _context_size context cfg bsz cache_bit
  = _context_size context cfg' bsz cache_bit.
Proof.
  intros Hh Ha Hk Hl.
  unfold _context_size, _input_buffer, _kv_cache, _compute_buffer.
  now rewrite (getitem_ext _ _ _ Hh), (getitem_ext _ _ _ Ha),
    (getitem_ext _ _ _ Hk), (getitem_ext _ _ _ Hl).
Qed.

(** The facades read the five required fields of the descriptor and
    nothing else: two descriptors that agree on them give the same
    outcome, whatever other keys they hold. *)
Theorem facades_read_five_fields
    (resolver resolver' : string -> exec (gmap string (num F)))
    hf_model context cache_bit bpw quant_size cfg cfg' :
  outcome (resolver hf_model) = inr cfg ->
  outcome (resolver' hf_model) = inr cfg' ->
  (forall field, In field required_fields -> cfg !! field = cfg' !! field) ->
  outcome (compute_sizes_exl2 resolver hf_model context cache_bit bpw)
  = outcome (compute_sizes_exl2 resolver' hf_model context cache_bit bpw)
  /\ outcome (compute_sizes_gguf resolver hf_model context quant_size)
     = outcome (compute_sizes_gguf resolver' hf_model context quant_size).
Proof.
  intros Hcfg Hcfg' Hsame.
  assert (forall cache_bit bpw,
            outcome (compute_sizes_exl2 resolver hf_model context cache_bit bpw)
            = outcome (compute_sizes_exl2 resolver' hf_model context cache_bit bpw))
    as Hexl2.
  { intros cb b. unfold compute_sizes_exl2.
    rewrite !(outcome_bind (resolver hf_model)),
      !(outcome_bind (resolver' hf_model)), Hcfg, Hcfg'.
    rewrite (model_size_ext cfg cfg') by (apply Hsame; cbn; tauto).
    rewrite (context_size_ext context cfg cfg')
      by (apply Hsame; cbn; tauto).
    reflexivity. }
  split; [apply Hexl2|].
  rewrite !compute_sizes_gguf_as_exl2. apply Hexl2.
Qed.

(** The warning of the compute buffer is printed by [_context_size] when
    the batch size is not 512 and the input buffer, the key/value cache
    and their sum were computed; an exception in these comes before the
    warning and leaves standard output empty. *)
Theorem context_size_warning context cfg bsz cache_bit :
  stdout (_context_size context cfg bsz cache_bit)
  = if bsz =? 512 then []
    else match outcome (let* inp := _input_buffer context cfg bsz in
                        let* kv := _kv_cache context cfg cache_bit in
                        inp +! kv) with
         | inr _ => [batch_size_warning]
         | inl _ => []
         end.
Proof.
  unfold _context_size.
  pose proof (silent_input_buffer context cfg bsz) as Hinp.
  pose proof (silent_kv_cache context cfg cache_bit) as Hkv.
  unfold silent in Hinp, Hkv.
  rewrite stdout_bind, outcome_bind, Hinp.
  destruct (outcome (_input_buffer context cfg bsz)) as [e|inp];
    [now destruct (bsz =? 512)|].
  rewrite stdout_bind, outcome_bind, Hkv.
  destruct (outcome (_kv_cache context cfg cache_bit)) as [e|kv];
    [now destruct (bsz =? 512)|].
  pose proof (silent_py_add inp kv) as Hadd. unfold silent in Hadd.
  rewrite stdout_bind, Hadd.
  destruct (outcome (inp +! kv)) as [e|s]; [now destruct (bsz =? 512)|].
  rewrite stdout_bind.
  rewrite (proj2 (compute_buffer_any_batch_size context cfg bsz)).
  assert (forall cb : num F,
            stdout (let* s0 := s +! cb in ret (py_round s0 2)) = []) as Hrest.
  { intros cb. apply silent_bind; auto with silent. }
  destruct (outcome (_compute_buffer context cfg bsz)) as [e|cb];
    [|rewrite Hrest]; cbn [app]; rewrite ?app_nil_r; reflexivity.
Qed.

Lemma input_buffer_of_int context cfg bsz h :
  cfg !! "hidden_size" = Some (Int h) ->
  _input_buffer context cfg bsz
  = ret (Int (bsz + h * bsz + bsz + context * bsz + context + bsz)).
Proof.
  intros Hh. unfold _input_buffer.
  rewrite (getitem_present _ _ _ Hh), bind_ret_l.
  cbn [py_mul py_add]. now rewrite !bind_ret_l.
Qed.

(** The input buffer of an integer hidden size is counted in integers,
    whatever the floats: the six buffers add up to
    [bsz * (hidden_size + context + 3) + context], at any magnitude.
    Without a hidden size the [KeyError] of that field is raised. *)
Theorem input_buffer_integer context cfg bsz :
  (forall h, cfg !! "hidden_size" = Some (Int h) ->
     _input_buffer context cfg bsz
     = ret (Int (bsz * (h + context + 3) + context)))
  /\ (cfg !! "hidden_size" = None ->
      _input_buffer context cfg bsz = raise (KeyError "hidden_size")).
Proof.
  split.
  - intros h Hh. rewrite (input_buffer_of_int _ _ _ h Hh).
    now replace (bsz * (h + context + 3) + context)
      with (bsz + h * bsz + bsz + context * bsz + context + bsz) by ring.
  - intros Hh. unfold _input_buffer. now rewrite (getitem_absent _ _ Hh).
Qed.
End Fields.

Lemma facades_read_five_fields_witness :
  outcome (compute_sizes_exl2 (always starling) "model" 8192 16 (Flt 4.5%float))
  = outcome (compute_sizes_exl2
               (always (<["vocab_size" := Int 32000]> starling)) "model" 8192 16
               (Flt 4.5%float))
  /\ outcome (compute_sizes_gguf (always starling) "model" 8192 "Q4_K_S")
     = outcome (compute_sizes_gguf
                  (always (<["vocab_size" := Int 32000]> starling)) "model"
                  8192 "Q4_K_S").
Proof.
  apply (facades_read_five_fields (always starling)
           (always (<["vocab_size" := Int 32000]> starling)) "model" 8192 16
           (Flt 4.5%float) "Q4_K_S" starling
           (<["vocab_size" := Int 32000]> starling));
    [reflexivity | reflexivity |].
  intros field [<-|[<-|[<-|[<-|[<-|[]]]]]]; reflexivity.
Defined.

(** ** Rounding error *)

Lemma round_half_even_error n d :
  0 < d -> - d <= 2 * (n - d * round_half_even n d) <= d.
Proof.
  intros Hd.
  pose proof (Z.mod_pos_bound n d Hd) as Hr.
  pose proof (Z.div_mod n d ltac:(lia)) as E.
  destruct (round_half_even_cases n d Hd) as [[-> C]|[-> C]]; nia.
Qed.

Section ExactRounding.
Import Exact.
Local Open Scope Qc_scope.
Implicit Types (x y : Qc).

Lemma this_of_int (z : Z) : this (of_int z) = inject_Z z.
Proof.
  unfold of_int. cbn [this Q2Qc]. apply Qred_identity.
  cbn. apply Z.gcd_1_r.
Qed.

Lemma round_of_int (z : Z) (ndigits : nat) : round (of_int z) ndigits = of_int z.
Proof.
  unfold round. rewrite this_of_int. cbn [Qnum Qden inject_Z].
  assert (0 < 10 ^ Z.of_nat ndigits)%Z as Hs by (apply Z.pow_pos_nonneg; lia).
  replace (round_half_even (z * 10 ^ Z.of_nat ndigits) 1)
    with (z * 10 ^ Z.of_nat ndigits)%Z.
  - rewrite of_int_mul. field. apply of_int_neq_0. lia.
  - unfold round_half_even. rewrite Z.mod_1_r, Z.div_1_r. reflexivity.
Qed.

(** A rational is its numerator over its denominator. *)
Lemma Qc_as_fraction x : x = of_int (Qnum x) / of_int (Zpos (Qden x)).
Proof.
  apply Qc_is_canon. unfold Qcdiv, Qcmult, Qcinv.
  cbn [this Q2Qc]. rewrite !this_of_int, !Qred_correct.
  destruct x as [[n d] Hx]. cbn [this Qnum Qden].
  unfold Qeq, Qmult, Qinv, inject_Z. cbn. lia.
Qed.

(** Fractions of integers compare as their cross products. *)
Lemma fraction_le (a b c d : Z) :
  (0 < b)%Z -> (0 < d)%Z ->
  (of_int a / of_int b <= of_int c / of_int d <-> (a * d <= c * b)%Z).
Proof.
  intros Hb Hd. unfold Qcle, Qcdiv, Qcmult, Qcinv.
  cbn [this Q2Qc]. rewrite !this_of_int, !Qred_correct.
  destruct b as [|b|b]; [lia| |lia]. destruct d as [|d|d]; [lia| |lia].
  unfold Qle, Qmult, Qinv, inject_Z. cbn. 
  rewrite !Z.mul_1_r. reflexivity.
Qed.

Lemma this_plus x y : (this (x + y) == this x + this y)%Q.
Proof. apply Qred_correct. Qed.

Lemma this_mult x y : (this (x * y) == this x * this y)%Q.
Proof. apply Qred_correct. Qed.

Lemma this_opp x : (this (- x) == - this x)%Q.
Proof. apply Qred_correct. Qed.

Lemma this_minus x y : (this (x - y) == this x - this y)%Q.
Proof. unfold Qcminus. rewrite this_plus, this_opp. reflexivity. Qed.

Lemma this_Q2Qc (q : Q) : (this (Q2Qc q) == q)%Q.
Proof. apply Qred_correct. Qed.

(** [round(x, ndigits)] is within half a unit of the last digit. *)
Lemma round_error x (ndigits : nat) :
  round x ndigits - x <= of_int 1 / of_int (2 * 10 ^ Z.of_nat ndigits)
  /\ x - round x ndigits <= of_int 1 / of_int (2 * 10 ^ Z.of_nat ndigits).
Proof.
  unfold round.
  assert (0 < 10 ^ Z.of_nat ndigits)%Z as Hs by (apply Z.pow_pos_nonneg; lia).
  pose proof (Qc_as_fraction x) as Hx.
  pose proof (round_half_even_error
                (Qnum x * 10 ^ Z.of_nat ndigits) (Zpos (Qden x)) eq_refl) as Hr.
  assert (0 < Zpos (Qden x))%Z as Hd by reflexivity.
  set (s := (10 ^ Z.of_nat ndigits)%Z) in *.
  set (n := Qnum x) in *. set (d := Zpos (Qden x)) in *.
  set (r := round_half_even (n * s) d) in *.
  clearbody s n d r. subst x.
  assert (of_int s <> 0) by (apply of_int_neq_0; lia).
  assert (of_int d <> 0) by (apply of_int_neq_0; lia).
  split.
  - replace (of_int r / of_int s - of_int n / of_int d)
      with (of_int (r * d - n * s) / of_int (s * d)).
    + apply fraction_le; nia.
    + unfold Z.sub. rewrite of_int_add, !of_int_mul.
      replace (of_int (- (n * s))) with (- (of_int n * of_int s)).
      * field. auto.
      * rewrite <- of_int_mul. apply Qc_is_canon.
        rewrite this_opp, !this_of_int. now rewrite inject_Z_opp.
  - replace (of_int n / of_int d - of_int r / of_int s)
      with (of_int (n * s - r * d) / of_int (s * d)).
    + apply fraction_le; nia.
    + unfold Z.sub. rewrite of_int_add, !of_int_mul.
      replace (of_int (- (r * d))) with (- (of_int r * of_int d)).
      * field. auto.
      * rewrite <- of_int_mul. apply Qc_is_canon.
        rewrite this_opp, !this_of_int. now rewrite inject_Z_opp.
Qed.
End ExactRounding.

(** Linear arithmetic on canonical rationals, through the rationals. *)
Ltac qc_linear :=
  unfold Qcle, Qclt in *;
  repeat match goal with
    | H : context [this (_ + _)] |- _ => rewrite this_plus in H
    | H : context [this (_ - _)] |- _ => rewrite this_minus in H
    | H : context [this (_ * _)] |- _ => rewrite this_mult in H
    | H : context [this (- _)] |- _ => rewrite this_opp in H
    | H : context [this (Exact.of_int _)] |- _ => rewrite this_of_int in H
    | H : context [this (Q2Qc _)] |- _ => rewrite this_Q2Qc in H
    | |- context [this (_ + _)] => rewrite this_plus
    | |- context [this (_ - _)] => rewrite this_minus
    | |- context [this (_ * _)] => rewrite this_mult
    | |- context [this (- _)] => rewrite this_opp
    | |- context [this (Exact.of_int _)] => rewrite this_of_int
    | |- context [this (Q2Qc _)] => rewrite this_Q2Qc
    end;
  unfold inject_Z in *; lra.

Section ModelSizeBounds.
Import Exact.
Local Open Scope Qc_scope.
Implicit Types (x y : Qc) (cfg : gmap string (num Qc)).

Lemma half_cent : of_int 1 / of_int (2 * 10 ^ Z.of_nat 2) = Q2Qc 0.005.
Proof. apply Qc_is_canon. reflexivity. Qed.

End ModelSizeBounds.


(** ** Grouped-query attention *)

Section GroupedQuery.
Import Exact.
Local Open Scope Qc_scope.
Implicit Types (cfg : gmap string (num Qc)).

End GroupedQuery.


(** ** Sizes grow with the request *)

Section Growth.
Import Exact.
Local Open Scope Qc_scope.
Implicit Types (cfg : gmap string (num Qc)) (x y : Qc).

Lemma Qcmult_le_compat x x' y y' :
  0 <= x -> 0 <= y -> x <= x' -> y <= y' -> x * y <= x' * y'.
Proof.
  intros Hx Hy Hxx Hyy.
  apply Qcle_trans with (x' * y).
  - now apply Qcmult_le_compat_r.
  - apply Qcmult_le_compat_l; [assumption|].
    now apply Qcle_trans with x.
Qed.

(** The context size before rounding grows with the hidden size, the
    layers, the context length, the batch size and the cache bits. *)
Lemma context_bytes_grows h h' a k l l' c c' bsz bsz' cb cb' :
  (0 <= a)%Z -> (0 <= k)%Z ->
  (0 <= h <= h')%Z -> (0 <= l <= l')%Z -> (0 <= c <= c')%Z ->
  (0 <= bsz <= bsz')%Z -> (0 <= cb <= cb')%Z ->
  context_bytes h a k l c bsz cb <= context_bytes h' a k l' c' bsz' cb'.
Proof.
  intros Ha Hk Hh Hl Hc Hbsz Hcb. unfold context_bytes.
  repeat apply Qcplus_le_compat.
  - apply of_int_le. nia.
  - assert (0 <= of_int h / (of_int a / of_int k)) as He
      by (repeat apply Qcdiv_nonneg; apply of_int_nonneg; lia).
    apply Qcmult_le_compat.
    + apply Qcmult_nonneg; [apply of_int_nonneg; lia|].
      apply Qcmult_nonneg; [exact He|apply of_int_nonneg; nia].
    + apply Qcdiv_nonneg; apply of_int_nonneg; lia.
    + apply Qcmult_le_compat_l; [|apply of_int_nonneg; lia].
      apply Qcmult_le_compat.
      * assumption.
      * apply of_int_nonneg; nia.
      * apply Qcdiv_le_compat_r.
        -- apply of_int_le; lia.
        -- apply Qcdiv_nonneg; apply of_int_nonneg; lia.
      * apply of_int_le; nia.
    + apply Qcdiv_le_compat_r; [apply of_int_le; lia|apply of_int_nonneg; lia].
  - repeat (apply Qcmult_le_compat_r; [|apply of_int_nonneg; lia]).
    apply Qcplus_le_compat; [|apply Qcle_refl].
    apply Qcmult_le_compat_r; [|apply of_int_nonneg; lia].
    apply Qcdiv_le_compat_r; [|apply of_int_nonneg; lia].
    apply of_int_le. lia.
Qed.


End Growth.



(** ** Sizes are not negative *)

Section Signs.
Import Exact.
Local Open Scope Qc_scope.
Implicit Types (cfg : gmap string (num Qc)) (x y : Qc).

Lemma round_nonneg x (ndigits : nat) : 0 <= x -> 0 <= round x ndigits.
Proof. intros Hx. rewrite <- (round_0 ndigits). now apply round_mono. Qed.

Lemma model_gib_nonneg p bpw : (0 <= p)%Z -> 0 <= value bpw -> 0 <= model_gib p bpw.
Proof.
  intros Hp Hb. unfold model_gib.
  apply Qcdiv_nonneg; [|apply of_int_nonneg; lia].
  apply round_nonneg, Qcdiv_nonneg; [|apply of_int_nonneg; lia].
  apply Qcmult_nonneg; [apply of_int_nonneg; lia|assumption].
Qed.

(** The compute buffer alone takes 0.75 MiB for each attention head. *)
Lemma context_bytes_floor h a k l c bsz cb :
  (0 <= h)%Z -> (1 <= a)%Z -> (0 <= k)%Z -> (0 <= l)%Z -> (0 <= c)%Z ->
  (0 <= bsz)%Z -> (0 <= cb)%Z ->
  of_int 786432 <= context_bytes h a k l c bsz cb.
Proof.
  intros Hh Ha Hk Hl Hc Hbsz Hcb.
  apply Qcle_trans with (context_bytes 0 a k 0 0 0 0);
    [|apply context_bytes_grows; lia].
  assert (context_bytes 0 a k 0 0 0 0 = of_int 786432 * of_int a) as ->.
  { unfold context_bytes.
    change (0 + 0 * 0 + 0 + 0 * 0 + 0 + 0)%Z with 0%Z.
    change (0 * 0)%Z with 0%Z. rewrite of_int_0.
    replace (of_int 786432) with (Q2Qc 0.75 * of_int 1024 * of_int 1024)
      by (apply Qc_is_canon; reflexivity).
    unfold Qcdiv. ring. }
  rewrite <- (Qcmult_1_r (of_int 786432)) at 1.
  apply Qcmult_le_compat_l; [|apply of_int_nonneg; lia].
  change 1 with (of_int 1). apply of_int_le. lia.
Qed.
End Signs.

Section Positive.
Import Exact.
Local Open Scope Qc_scope.
Implicit Types (cfg : gmap string (num Qc)) (x y : Qc).
Variable resolver : string -> exec (gmap string (num Qc)).

Lemma context_gib_positive h a k l context cache_bit :
  (0 <= h)%Z -> (1 <= a)%Z -> (0 <= k)%Z -> (0 <= l)%Z ->
  (0 <= context)%Z -> (0 <= cache_bit)%Z ->
  0 < context_gib h a k l context cache_bit.
Proof.
  intros Hh Ha Hk Hl Hc Hcb. unfold context_gib.
  apply Qclt_le_trans with (of_int 786432 / of_int (2 ^ 30)).
  - unfold Qclt. vm_compute. reflexivity.
  - apply Qcdiv_le_compat_r; [|apply of_int_nonneg; lia].
    rewrite <- (round_of_int 786432 2).
    apply round_mono, context_bytes_floor; lia.
Qed.


Lemma known_scheme_bpw (quant_size : string) :
  In quant_size (get_gguf_quants (F := Qc)) ->
  exists b : Qc,
    dict_get (_GGUF_QUANTS (F := Qc)) quant_size (Int 0) = Flt b
    /\ Q2Qc 3.35 <= b.
Proof.
  intros Hin. cbn in Hin.
  repeat (destruct Hin as [<-|Hin];
          [eexists; split; [reflexivity|vm_compute; discriminate]|]).
  destruct Hin.
Qed.

Lemma model_gib_positive p b :
  (1 <= p)%Z -> Q2Qc 3.35 <= b -> 0 < model_gib p (Flt b).
Proof.
  intros Hp Hb. unfold model_gib. cbn [value].
  apply Qclt_le_trans
    with (round (of_int 1 * Q2Qc 3.35 / of_int 8) 2 / of_int (2 ^ 30)).
  - unfold Qclt. vm_compute. reflexivity.
  - apply Qcdiv_le_compat_r; [|apply of_int_nonneg; lia].
    apply round_mono, Qcdiv_le_compat_r; [|apply of_int_nonneg; lia].
    apply Qcmult_le_compat; try assumption.
    + apply of_int_nonneg; lia.
    + unfold Qcle. vm_compute. discriminate.
    + apply of_int_le; lia.
Qed.

End Positive.



(** ** The metadata fetch *)

Section FetchLemmas.
Context {F : Type} `{PyFloat F} `{PyTruth F}.
Variable web : hub F.
Implicit Types (cfg config : gmap string (num F)) (v t : num F).

Lemma lift_inr {A} (a : A) : lift (inr a) = ret a.
Proof. reflexivity. Qed.

Lemma lift_inl {A} (e : pyerr) : lift (A := A) (inl e) = raise e.
Proof. reflexivity. Qed.

Lemma catch_returns {A} (m handler : exec A) (a : A) :
  outcome m = inr a -> catch m handler = m.
Proof. destruct m as [out [e|a']]; cbn; [discriminate|reflexivity]. Qed.

Lemma catch_raises {A} (m handler : exec A) (e : pyerr) :
  silent m -> outcome m = inl e -> catch m handler = handler.
Proof.
  destruct m as [out [e'|a]]; unfold silent; cbn; [|discriminate].
  intros -> _. now destruct handler.
Qed.

Lemma silent_index_half total_size what : silent (index_half total_size what).
Proof.
  unfold index_half. apply silent_bind; [apply silent_lift|]. intros t.
  apply silent_bind; [apply silent_py_truediv|]. intros v.
  destruct (negb (py_bool v)); auto with silent.
Qed.

Lemma index_half_returns total_size what v :
  outcome (index_half total_size what) = inr v <->
  exists t, total_size = inr t
            /\ outcome (t /! Int 2) = inr v /\ py_bool v = true.
Proof.
  unfold index_half. rewrite bind_returns. split.
  - intros (t & Ht & Hv). cbn in Ht. apply bind_returns in Hv as (v' & Hv' & Hv).
    destruct (py_bool v') eqn:Hb; cbn in Hv; [|discriminate].
    injection Hv as <-. eauto.
  - intros (t & -> & Hv & Hb). exists t. split; [reflexivity|].
    apply bind_returns. exists v. split; [assumption|]. now rewrite Hb.
Qed.

Lemma index_half_exec total_size what v :
  outcome (index_half total_size what) = inr v ->
  index_half total_size what = ret v.
Proof.
  intros Hv. pose proof (silent_index_half total_size what) as Hs.
  destruct (index_half total_size what) as [out r]. unfold silent in Hs.
  cbn in *. now subst.
Qed.

Lemma index_half_fails total_size what e :
  outcome (index_half total_size what) = inl e ->
  forall handler, catch (index_half total_size what) handler = handler.
Proof.
  intros He handler. apply (catch_raises _ _ e); [apply silent_index_half|exact He].
Qed.

(** [_model_config] in terms of the two indexes and the page. *)
Lemma model_config_unfold hf_model :
  _model_config web hf_model =
    let* config := lift (config_json web hf_model) in
    let* model_size :=
      catch (index_half (safetensors_total_size web hf_model)
               "no size in safetensors metadata")
        (catch (index_half (pytorch_total_size web hf_model)
                  "no size in pytorch metadata")
           (let* soup := lift (model_page web hf_model) in
            match safetensors_params soup with
            | Some total => lift total
            | None => lift (model_header soup)
            end)) in
    if negb (py_bool model_size)
    then raise (FetchError "no size in pytorch metadata")
    else ret (<["parameters" := model_size]> config).
Proof. reflexivity. Qed.
End FetchLemmas.

Section FetchTheorems.
Context {F : Type} `{PyFloat F} `{PyTruth F}.
Variable web : hub F.
Implicit Types (cfg config : gmap string (num F)) (v t : num F).

Lemma unusable_fails total_size what :
  unusable total_size -> exists e, outcome (index_half total_size what) = inl e.
Proof.
  intros Hu. destruct (outcome (index_half total_size what)) as [e|v] eqn:Hv;
    [eauto|].
  apply index_half_returns in Hv as (t & Ht & Hv & Hb).
  rewrite (Hu t v Ht Hv) in Hb. discriminate.
Qed.

(** A descriptor that [_model_config] returns is the fetched [config.json]
    with one field set: ["parameters"], to a number that is not zero. *)
Theorem model_config_returns hf_model cfg :
  outcome (_model_config web hf_model) = inr cfg ->
  exists config v,
    config_json web hf_model = inr config
    /\ cfg !! "parameters" = Some v /\ py_bool v = true
    /\ forall key, key <> "parameters" -> cfg !! key = config !! key.
Proof.
  unfold _model_config. intros Hcfg.
  apply bind_returns in Hcfg as (config & Hconfig & Hcfg).
  apply bind_returns in Hcfg as (v & _ & Hcfg).
  destruct (py_bool v) eqn:Hb; cbn in Hcfg; [|discriminate].
  injection Hcfg as <-. exists config, v.
  split; [exact Hconfig|]. split; [apply lookup_insert_eq|].
  split; [exact Hb|].
  intros key Hkey. now apply lookup_insert_ne.
Qed.

Lemma index_half_of total_size what t v :
  total_size = inr t -> outcome (t /! Int 2) = inr v -> py_bool v = true ->
  index_half total_size what = ret v.
Proof. intros Hts Hv Hb. apply index_half_exec, index_half_returns. eauto. Qed.

Lemma model_config_safetensors hf_model config t v :
  config_json web hf_model = inr config ->
  safetensors_total_size web hf_model = inr t ->
  outcome (t /! Int 2) = inr v -> py_bool v = true ->
  _model_config web hf_model = ret (<["parameters" := v]> config).
Proof.
  intros Hconfig Hst Hv Hb.
  rewrite model_config_unfold, Hconfig, lift_inr, bind_ret_l.
  rewrite (index_half_of _ _ t v Hst Hv Hb).
  rewrite (catch_returns _ _ v) by reflexivity.
  rewrite bind_ret_l, Hb. reflexivity.
Qed.


(** With both indexes of no use the page decides: the total of the
    [ModelSafetensorsParams] element if there is one, of the [ModelHeader]
    element otherwise.  A total that is not zero is the parameter count,
    as it is and not halved; a zero raises "no size in pytorch metadata";
    an exception of the page is the exception of the fetch. *)
Theorem model_config_page_fallback hf_model config :
  config_json web hf_model = inr config ->
  unusable (safetensors_total_size web hf_model) ->
  unusable (pytorch_total_size web hf_model) ->
  _model_config web hf_model =
    match model_page web hf_model with
    | inl e => raise e
    | inr soup =>
        match match safetensors_params soup with
              | Some total => total
              | None => model_header soup
              end with
        | inl e => raise e
        | inr v =>
            if py_bool v then ret (<["parameters" := v]> config)
            else raise (FetchError "no size in pytorch metadata")
        end
    end.
Proof.
  intros Hconfig Hst Hpt.
  rewrite model_config_unfold, Hconfig, lift_inr, bind_ret_l.
  destruct (unusable_fails _ "no size in safetensors metadata" Hst) as [e He].
  destruct (unusable_fails _ "no size in pytorch metadata" Hpt) as [e' He'].
  rewrite (index_half_fails _ _ _ He), (index_half_fails _ _ _ He').
  destruct (model_page web hf_model) as [e1|soup]; [reflexivity|].
  rewrite lift_inr, bind_ret_l.
  destruct (safetensors_params soup) as [[e2|v]|];
    [reflexivity| |destruct (model_header soup) as [e2|v]; [reflexivity|]];
    rewrite lift_inr, bind_ret_l; now destruct (py_bool v).
Qed.
End FetchTheorems.

Lemma model_config_returns_witness :
  exists config v,
    config_json starling_hub "Nexusflow/Starling-LM-7B-beta" = inr config
    /\ starling !! "parameters" = Some v /\ py_bool v = true
    /\ forall key, key <> "parameters" -> starling !! key = config !! key.
Proof.
  apply (model_config_returns starling_hub "Nexusflow/Starling-LM-7B-beta"
           starling).
  vm_compute. reflexivity.
Defined.


Lemma model_config_page_fallback_witness :
  _model_config (F := float) page_hub "Nexusflow/Starling-LM-7B-beta"
  = ret (<["parameters" := Int 7241748480]>
           {[ "hidden_size" := Int 4096;
              "num_attention_heads" := Int 32;
              "num_key_value_heads" := Int 8;
              "num_hidden_layers" := Int 32 ]}).
Proof.
  apply (model_config_page_fallback (F := float) page_hub
           "Nexusflow/Starling-LM-7B-beta" _ eq_refl);
    intros t v Ht; discriminate Ht.
Defined.

(** The worked example from the hub to the result. *)
Lemma example_from_hub :
  compute_sizes_exl2 (_model_config starling_hub)
    "Nexusflow/Starling-LM-7B-beta" 8192 16 (Flt 4.5%float)
  = ret {| model_size := Flt 3.793727159500122%float;
           context_size := Flt 1.5293059349060059%float;
           total_size := Flt 5.323033094406128%float |}.
Proof. vm_compute. reflexivity. Qed.

(** ** From the bytes of the weights to the model size *)

Section FetchedSize.
Import Exact.
Local Open Scope Qc_scope.
Variable web : hub Qc.

End FetchedSize.


(** ** The results are floats *)

(** Whatever the floats and the descriptor, the three sizes of a returned
    result are floats, never ints, and the total is the float sum of the
    other two. *)
Theorem results_are_floats {F : Type} `{PyFloat F}
    (resolver : string -> exec (gmap string (num F)))
    (hf_model : string) (context cache_bit : Z) (bpw : num F)
    (quant_size : string) (r : sizes F) :
  outcome (compute_sizes_exl2 resolver hf_model context cache_bit bpw) = inr r
  \/ outcome (compute_sizes_gguf resolver hf_model context quant_size) = inr r ->
  exists m c : F,
    r = {| model_size := Flt m; context_size := Flt c;
           total_size := Flt (fl_add m c) |}.
Proof.
  intros Hr.
  assert (exists cache_bit bpw,
            outcome (compute_sizes_exl2 resolver hf_model context cache_bit bpw)
            = inr r) as (cb & b & Hr').
  { destruct Hr as [Hr|Hr]; [eauto|].
    rewrite compute_sizes_gguf_as_exl2 in Hr. eauto. }
  apply compute_sizes_exl2_returns in Hr'
    as (cfg & m & c & _ & _ & Hm & _ & Hc & Ht).
  destruct (py_truediv_returns_Flt _ _ _ Hm) as [fm Hfm].
  destruct (py_truediv_returns_Flt _ _ _ Hc) as [fc Hfc].
  rewrite Hfm, Hfc in Ht. cbn in Ht. injection Ht as Ht.
  exists fm, fc. destruct r; cbn in *. congruence.
Qed.

Lemma results_are_floats_witness :
  exists m c : float,
    {| model_size := Flt 3.793727159500122%float;
       context_size := Flt 1.5293059349060059%float;
       total_size := Flt 5.323033094406128%float |}
    = {| model_size := Flt m; context_size := Flt c;
         total_size := Flt (fl_add m c) |}.
Proof.
  apply (results_are_floats (always starling) "model" 8192 16
           (Flt 4.5%float) "").
  left. vm_compute. reflexivity.
Defined.

(** ** No key/value heads *)

Section ZeroHeads.
Context {F : Type} `{PyFloat F}.
Hypothesis int_truediv_by_zero :
  forall a, fl_int_truediv a 0 = inl ZeroDivisionError.

Lemma context_size_zero_kv_heads context (cfg : gmap string (num F))
    bsz cache_bit h a l p :
  has_fields cfg h a 0 l p ->
  _context_size context cfg bsz cache_bit = raise ZeroDivisionError.
Proof.
  intros []. unfold _context_size.
  rewrite (input_buffer_of_int _ _ _ h) by assumption.
  rewrite bind_ret_l. unfold _kv_cache.
  repeat (erewrite getitem_present by eassumption; rewrite bind_ret_l).
  cbn [py_truediv]. now rewrite int_truediv_by_zero.
Qed.
End ZeroHeads.

(** With the integer 0 for [num_key_value_heads], in binary64 as in exact
    arithmetic, [_context_size] raises [ZeroDivisionError], and it does so
    before the compute buffer is reached: nothing is printed, at any batch
    size. *)
Theorem zero_kv_heads_raise (context bsz cache_bit h a l p : Z) :
  (forall cfg : gmap string (num float),
     has_fields cfg h a 0 l p ->
     _context_size context cfg bsz cache_bit = raise ZeroDivisionError)
  /\ (forall cfg : gmap string (num Qc),
        has_fields cfg h a 0 l p ->
        _context_size context cfg bsz cache_bit = raise ZeroDivisionError).
Proof.
  split; intros cfg Hcfg;
    (eapply context_size_zero_kv_heads; [intros; reflexivity | eassumption]).
Qed.

Lemma zero_kv_heads_raise_witness :
  _context_size (F := float) 8192 zero_heads 100 16 = raise ZeroDivisionError
  /\ _context_size (F := Qc) 8192 zero_heads 100 16 = raise ZeroDivisionError.
Proof.
  split.
  - apply (proj1 (zero_kv_heads_raise 8192 100 16 4096 32 32 7000000000)).
    split; reflexivity.
  - apply (proj2 (zero_kv_heads_raise 8192 100 16 4096 32 32 7000000000)).
    split; reflexivity.
Defined.

(** ** The key/value cache and the request *)

Section Bilinear.
Import Exact.
Local Open Scope Qc_scope.

End Bilinear.


Lemma input_buffer_integer_witness :
  _input_buffer 8192 starling 512 = ret (Int (512 * (4096 + 8192 + 3) + 8192))
  /\ _input_buffer (F := float) 8192 ∅ 512 = raise (KeyError "hidden_size").
Proof.
  split.
  - apply (proj1 (input_buffer_integer 8192 starling 512) 4096). reflexivity.
  - apply (proj2 (input_buffer_integer (F := float) 8192 ∅ 512)). reflexivity.
Defined.
